(** * Wio-Pipeline: the labelled serial recorder of [pipe.py]

    A shallow embedding of the capture loop, the sample writer, the
    preview loader and the label store of [SerialRecorderApp], and the
    properties of its specification checked against it.

    Conventions.
    - Python [str] is [string]; a character is one code unit.
    - The builtins whose behaviour is fixed by tables outside the program
      ([int], [float], [str] of a float, [str.isalnum], [str.isspace])
      form the interface [Builtins]; the program is embedded over any
      implementation of it.  [Fixture] holds a small implementation
      (ASCII, decimal literals) on which the model runs.
    - The serial device is the list of what successive [readline] calls
      deliver; the disk is a finite map from label directories to their
      files; operating-system failures are explicit arguments.
    - Tk widgets are the fields of [app]; drawing is not modelled. *)

From Stdlib Require Import ZArith String Ascii List DecimalString.
From stdpp Require Import base option list strings gmap sorting pretty.

(** ** Configuration constants *)

Definition BAUD_RATE : Z := 115200.
Definition DATA_COLUMNS : nat := 6.
Definition BASE_FOLDER_NAME : string := "samples".

(** [RECORD_DURATION_SECONDS * 1000] with [RECORD_DURATION_SECONDS = 2.5]:
    the product is the float 2500.0 exactly, and Python compares an [int]
    with a [float] by value, so the bound is the integer 2500. *)
Definition duration_ms : Z := 2500.

(** ** Strings *)

Module PyStr.

Definition CR : ascii := "013"%char.
Definition LF : ascii := "010"%char.

Fixpoint filter (keep : ascii → bool) (s : string) : string :=
  match s with
  | "" => ""
  | String c s' => if keep c then String c (filter keep s') else filter keep s'
  end.

Fixpoint all (p : ascii → bool) (s : string) : bool :=
  match s with
  | "" => true
  | String c s' => p c && all p s'
  end.

(** [s.lstrip()], [s.rstrip()] and [s.strip()] for a given notion of
    white space. *)
Fixpoint lstrip (space : ascii → bool) (s : string) : string :=
  match s with
  | "" => ""
  | String c s' => if space c then lstrip space s' else s
  end.

Fixpoint rstrip (space : ascii → bool) (s : string) : string :=
  match s with
  | "" => ""
  | String c s' =>
      match rstrip space s' with
      | "" => if space c then "" else String c ""
      | r => String c r
      end
  end.

(** A string that does not begin with white space. *)
Definition no_lead (space : ascii → bool) (s : string) : Prop :=
  match s with
  | "" => True
  | String c _ => space c = false
  end.

Definition strip (space : ascii → bool) (s : string) : string :=
  rstrip space (lstrip space s).

(** [s.split(sep)] for a one-character separator: never the empty list. *)
Fixpoint split (sep : ascii) (s : string) : list string :=
  match s with
  | "" => [""]
  | String c s' =>
      if decide (c = sep) then "" :: split sep s'
      else match split sep s' with
           | p :: ps => String c p :: ps
           | [] => [String c ""]
           end
  end.

(** [sep.join(parts)]. *)
Fixpoint join (sep : string) (parts : list string) : string :=
  match parts with
  | [] => ""
  | [p] => p
  | p :: ps => p +:+ sep +:+ join sep ps
  end.

Fixpoint concat (parts : list string) : string :=
  match parts with
  | [] => ""
  | p :: ps => p +:+ concat ps
  end.

Fixpoint startswith (pre s : string) : bool :=
  match pre, s with
  | "", _ => true
  | String a pre', String b s' => bool_decide (a = b) && startswith pre' s'
  | String _ _, "" => false
  end.

Fixpoint endswith (suf s : string) : bool :=
  bool_decide (s = suf) ||
  match s with
  | "" => false
  | String _ s' => endswith suf s'
  end.

(** Decimal rendering padded with zeros on the left, as [%02d]. *)
Fixpoint zeros (n : nat) : string :=
  match n with
  | O => ""
  | S n' => String "0" (zeros n')
  end.

Definition zfill (width : nat) (s : string) : string :=
  zeros (width - String.length s) +:+ s.

End PyStr.

(** ** The builtins the program relies on *)

Class Builtins := {
  (** the values of Python's [float] *)
  pyfloat : Type;
  (** [int(s)]; [None] stands for [ValueError] *)
  py_int : string → option Z;
  (** [float(s)]; [None] stands for [ValueError] *)
  py_float : string → option pyfloat;
  (** [str(x)] of a float, which is what [csv.writer] emits for it *)
  float_str : pyfloat → string;
  (** [c.isalnum()] and [c.isspace()] *)
  isalnum : ascii → bool;
  isspace : ascii → bool;
}.

(** A small implementation: ASCII classification, decimal integers with
    an optional minus sign, and the floats of integral value, written
    [d.0]. *)
Module Fixture.

Definition between (lo hi : N) (c : ascii) : bool :=
  (lo <=? N_of_ascii c)%N && (N_of_ascii c <=? hi)%N.

Definition ascii_alnum (c : ascii) : bool :=
  between 48 57 c || between 65 90 c || between 97 122 c.

Definition ascii_space (c : ascii) : bool :=
  between 9 13 c || between 28 32 c.

Definition int_of_text (s : string) : option Z :=
  Z.of_int <$> NilZero.int_of_string s.

Definition text_of_int (z : Z) : string :=
  NilZero.string_of_int (Z.to_int z).

Definition float_of_text (s : string) : option Z :=
  match PyStr.split "." s with
  | [whole; "0"] => int_of_text whole
  | _ => None
  end.

Definition text_of_float (z : Z) : string := text_of_int z +:+ ".0".

Definition builtins : Builtins := {|
  pyfloat := Z;
  py_int := int_of_text;
  py_float := float_of_text;
  float_str := text_of_float;
  isalnum := ascii_alnum;
  isspace := ascii_space;
|}.

End Fixture.

(** Python's truth value of an optional string: [None] and the empty
    string are false. *)
Definition truthy (o : option string) : bool :=
  match o with
  | Some s => negb (bool_decide (s = ""))
  | None => false
  end.

(** ** Capture reader: [read_serial_data] *)

(** What one call of [ser.readline()] does: it returns bytes, here already
    decoded ([decode("utf-8", errors="ignore")]; the empty text is a
    read that timed out), or it raises. *)
Inductive read_event :=
  | Line (text : string)
  | ReadError (msg : string).

(** A serial device: whether [serial.Serial(...)] raises, and what the
    reads deliver after [reset_input_buffer()]. *)
Record device := {
  open_error : option string;
  incoming : list read_event;
}.

(** The handle [ser]. *)
Inductive port_state := NotOpened | Opened | Closed.

#[global] Instance read_event_eq_dec : EqDecision read_event.
Proof. solve_decision. Defined.
#[global] Instance port_state_eq_dec : EqDecision port_state.
Proof. solve_decision. Defined.

Section Capture.
Context `{Builtins}.

(** Lines 292-308: from the text of a read to a parsed record; [None]
    is each of the three [continue]s. *)
Definition parse_line (raw : string) : option (Z * list pyfloat) :=
  let line := PyStr.strip isspace raw in
  if decide (line = "") then None
  else
    let parts := PyStr.split "," line in
    if decide (length parts ≠ DATA_COLUMNS + 1) then None
    else
      timestamp ← py_int (default "" (head parts));
      floats ← mapM py_float (tail parts);
      Some (timestamp, floats).

(** The variables of the loop. *)
Record loop_state := {
  start_ts : option Z;
  data : list (list pyfloat);
}.

Inductive step_result :=
  | Continue (st : loop_state)
  | Break (st : loop_state)
  | Raise (msg : string).

(** One iteration of [while True] (lines 291-317). *)
Definition loop_body (st : loop_state) (ev : read_event) : step_result :=
  match ev with
  | ReadError msg => Raise msg
  | Line raw =>
      match parse_line raw with
      | None => Continue st
      | Some (timestamp, floats) =>
          let start := default timestamp (start_ts st) in
          if decide (duration_ms ≤ timestamp - start)%Z
          then Break {| start_ts := Some start; data := data st |}
          else Continue {| start_ts := Some start;
                           data := data st ++ [floats] |}
      end
  end.

(** How the loop has ended once the given reads are consumed; [Waiting]
    when it is still running (a device that stays silent keeps it
    there). *)
Inductive loop_exit :=
  | Broke (st : loop_state) (rest : list read_event)
  | Raised (msg : string) (st : loop_state) (rest : list read_event)
  | Waiting (st : loop_state).

Fixpoint read_loop (st : loop_state) (reads : list read_event) : loop_exit :=
  match reads with
  | [] => Waiting st
  | ev :: rest =>
      match loop_body st ev with
      | Continue st' => read_loop st' rest
      | Break st' => Broke st' rest
      | Raise msg => Raised msg st rest
      end
  end.

Definition initial : loop_state := {| start_ts := None; data := [] |}.

(** What a call leaves behind. *)
Record capture := {
  returned : list (list pyfloat);
  port : port_state;
  status : string;
  unread : list read_event;
}.

Inductive outcome :=
  | Returns (c : capture)
  | Blocked (st : loop_state).

Definition read_serial_data (wio_port_name : option string) (dev : device)
  : outcome :=
  if negb (truthy wio_port_name) then
    Returns {| returned := []; port := NotOpened;
               status := "ERROR: Cannot record. Wio Terminal port not detected.";
               unread := incoming dev |}
  else
    match open_error dev with
    | Some msg =>
        Returns {| returned := []; port := NotOpened;
                   status := "Error: " +:+ msg; unread := incoming dev |}
    | None =>
        match read_loop initial (incoming dev) with
        | Broke st rest =>
            Returns {| returned := data st; port := Closed;
                       status := "Recording finished. Collected "
                                 +:+ pretty (length (data st)) +:+ " samples.";
                       unread := rest |}
        | Raised msg _ rest =>
            Returns {| returned := []; port := Opened;
                       status := "Error: " +:+ msg; unread := rest |}
        | Waiting st => Blocked st
        end
    end.

(** The records among a run of reads, in arrival order. *)
Definition records (reads : list read_event) : list (Z * list pyfloat) :=
  omap (λ ev, match ev with Line raw => parse_line raw | ReadError _ => None end)
       reads.

Definition is_line (ev : read_event) : Prop :=
  match ev with Line _ => True | ReadError _ => False end.

(** The zero point once the reads [pre] and then a record stamped [t]
    have been seen from state [st]. *)
Definition zero_point (st : loop_state) (pre : list read_event) (t : Z) : Z :=
  default (default t (head (records pre).*1)) (start_ts st).

End Capture.

(** ** The [csv] module, dialect [excel], as the program uses it

    [csv.writer(f)] on a file opened with [newline=''], and
    [csv.reader(f)] on a file opened in text mode, where the file object
    translates every line ending to a line feed and yields the text line
    by line. *)

Module Csv.
Import PyStr.

Definition delimiter : ascii := ",".
Definition quotechar : ascii := "034"%char.
Definition lineterminator : string := String CR (String LF "").

Definition is_newline (c : ascii) : bool :=
  bool_decide (c = CR) || bool_decide (c = LF).

(** The characters that make [QUOTE_MINIMAL] quote a field. *)
Definition special (c : ascii) : bool :=
  bool_decide (c = delimiter) || bool_decide (c = quotechar) || is_newline c.

Definition plain_char (c : ascii) : bool := negb (special c).

Fixpoint double_quotes (s : string) : string :=
  match s with
  | "" => ""
  | String c s' =>
      if decide (c = quotechar) then String c (String c (double_quotes s'))
      else String c (double_quotes s')
  end.

(** One field of a row; [alone] says the row has this field only, in
    which case an empty field is quoted. *)
Definition write_field (alone : bool) (f : string) : string :=
  if negb (all plain_char f) || (alone && bool_decide (f = ""))
  then String quotechar (double_quotes f) +:+ String quotechar ""
  else f.

Definition writerow (row : list string) : string :=
  join (String delimiter "") (write_field (bool_decide (length row = 1)) <$> row)
  +:+ lineterminator.

Definition writerows (rows : list (list string)) : string :=
  concat (writerow <$> rows).

(** Text mode with the default [newline=None]. *)
Fixpoint universal_newlines (s : string) : string :=
  match s with
  | "" => ""
  | String c s' =>
      if decide (c = CR) then
        String LF
          match s' with
          | String c' s'' =>
              if decide (c' = LF) then universal_newlines s''
              else universal_newlines s'
          | "" => ""
          end
      else String c (universal_newlines s')
  end.

(** Iterating over the file: each line with its line feed, the last one
    possibly without. *)
Fixpoint lines (s : string) : list string :=
  match s with
  | "" => []
  | String c s' =>
      if decide (c = LF) then String c "" :: lines s'
      else match lines s' with
           | l :: ls => String c l :: ls
           | [] => [String c ""]
           end
  end.

(** The reader's automaton ([escapechar] is unset, so its two escape
    states are unreachable and left out). *)
Inductive state :=
  | START_RECORD | START_FIELD | IN_FIELD
  | IN_QUOTED_FIELD | QUOTE_IN_QUOTED_FIELD | EAT_CRNL.

#[global] Instance state_eq_dec : EqDecision state.
Proof. solve_decision. Defined.

Record parser := {
  st : state;
  field : string;
  fields : list string;
}.

Definition goto (s : state) (p : parser) : parser :=
  {| st := s; field := field p; fields := fields p |}.

Definition parse_add_char (c : ascii) (p : parser) : parser :=
  {| st := st p; field := field p +:+ String c ""; fields := fields p |}.

Definition parse_save_field (p : parser) : parser :=
  {| st := st p; field := ""; fields := fields p ++ [field p] |}.

Definition parse_reset : parser :=
  {| st := START_RECORD; field := ""; fields := [] |}.

(** The case [START_FIELD]; the character [None] is the end-of-line
    mark the reader feeds after each line. *)
Definition start_field (p : parser) (c : option ascii) : parser :=
  match c with
  | None => goto START_RECORD (parse_save_field p)
  | Some ch =>
      if is_newline ch then goto EAT_CRNL (parse_save_field p)
      else if decide (ch = quotechar) then goto IN_QUOTED_FIELD p
      else if decide (ch = delimiter) then parse_save_field p
      else goto IN_FIELD (parse_add_char ch p)
  end.

(** [parse_process_char]; [None] as a result is [csv.Error]. *)
Definition parse_process_char (p : parser) (c : option ascii) : option parser :=
  match st p with
  | START_RECORD =>
      match c with
      | None => Some p
      | Some ch =>
          if is_newline ch then Some (goto EAT_CRNL p)
          else Some (start_field (goto START_FIELD p) c)
      end
  | START_FIELD => Some (start_field p c)
  | IN_FIELD =>
      match c with
      | None => Some (goto START_RECORD (parse_save_field p))
      | Some ch =>
          if is_newline ch then Some (goto EAT_CRNL (parse_save_field p))
          else if decide (ch = delimiter)
               then Some (goto START_FIELD (parse_save_field p))
          else Some (parse_add_char ch p)
      end
  | IN_QUOTED_FIELD =>
      match c with
      | None => Some p
      | Some ch =>
          if decide (ch = quotechar) then Some (goto QUOTE_IN_QUOTED_FIELD p)
          else Some (parse_add_char ch p)
      end
  | QUOTE_IN_QUOTED_FIELD =>
      match c with
      | None => Some (goto START_RECORD (parse_save_field p))
      | Some ch =>
          if decide (ch = quotechar)
          then Some (goto IN_QUOTED_FIELD (parse_add_char ch p))
          else if decide (ch = delimiter)
               then Some (goto START_FIELD (parse_save_field p))
          else if is_newline ch then Some (goto EAT_CRNL (parse_save_field p))
          else Some (goto IN_FIELD (parse_add_char ch p))
      end
  | EAT_CRNL =>
      match c with
      | None => Some (goto START_RECORD p)
      | Some ch => if is_newline ch then Some p else None
      end
  end.

Fixpoint feed (p : parser) (line : string) : option parser :=
  match line with
  | "" => Some p
  | String c line' => p' ← parse_process_char p (Some c); feed p' line'
  end.

(** The rows the reader yields: a record is complete when a line leaves
    the automaton in [START_RECORD]; when the lines run out inside a
    record, what was read of it is the last row. *)
Fixpoint reader_from (p : parser) (ls : list string)
  : option (list (list string)) :=
  match ls with
  | [] =>
      if decide (field p ≠ "" ∨ st p = IN_QUOTED_FIELD)
      then Some [fields (parse_save_field p)]
      else Some []
  | line :: rest =>
      p1 ← feed p line;
      p2 ← parse_process_char p1 None;
      if decide (st p2 = START_RECORD)
      then (fields p2 ::.) <$> reader_from parse_reset rest
      else reader_from p2 rest
  end.

Definition reader (ls : list string) : option (list (list string)) :=
  reader_from parse_reset ls.

(** A field that [QUOTE_MINIMAL] writes as it is. *)
Definition plain (f : string) : Prop := f ≠ "" ∧ all plain_char f.

(** The automaton is about to read a field and has read nothing of it. *)
Definition at_start (p : parser) : Prop :=
  (st p = START_RECORD ∨ st p = START_FIELD) ∧ field p = "".

(** A text with no line ending in it. *)
Definition unbroken (s : string) : Prop := all (λ c, negb (is_newline c)) s.

End Csv.

(** ** Preview loader (lines 435-443 of [preview_selected_sample_event]) *)

Section Preview.
Context `{Builtins}.

(** The [for row in reader] loop with its accumulator [preview_data]. *)
Fixpoint preview_loop (rows : list (list string))
                      (preview_data : list (list pyfloat))
  : list (list pyfloat) :=
  match rows with
  | [] => preview_data
  | row :: rest =>
      match mapM py_float row with
      | Some floats => preview_loop rest (preview_data ++ [floats])
      | None => preview_loop rest preview_data
      end
  end.

(** From the content of a sample file to the previewed data; [None]
    when the reader raises. *)
Definition load_preview_data (content : string)
  : option (list (list pyfloat)) :=
  rows ← Csv.reader (Csv.lines (Csv.universal_newlines content));
  Some (preview_loop rows []).

(** A float survives being written and read: it is printed as a plain
    field, and that text parses back to it. *)
Definition survives (x : pyfloat) : Prop :=
  Csv.plain (float_str x) ∧ py_float (float_str x) = Some x.

End Preview.


(** ** The disk and the application state *)

(** The base folder [samples/]: each label directory with its files
    (name to content).  The folder exists (it is created on start-up) and
    holds label directories only, which hold regular files only. *)
Abbreviation disk := (gmap string (gmap string string)).

(** [posixpath.join(a, *p)]. *)
Definition os_path_join (a : string) (p : list string) : string :=
  foldl (λ path b,
           if PyStr.startswith "/" b then b
           else if bool_decide (path = "") || PyStr.endswith "/" path
                then path +:+ b
           else path +:+ "/" +:+ b) a p.

(** [datetime.now()] and its [strftime("%Y%m%d_%H%M%S")]. *)
Record datetime := {
  year : nat; month : nat; day : nat;
  hour : nat; minute : nat; second : nat;
}.

Definition strftime (t : datetime) : string :=
  PyStr.zfill 4 (pretty (year t)) +:+ PyStr.zfill 2 (pretty (month t))
  +:+ PyStr.zfill 2 (pretty (day t)) +:+ "_"
  +:+ PyStr.zfill 2 (pretty (hour t)) +:+ PyStr.zfill 2 (pretty (minute t))
  +:+ PyStr.zfill 2 (pretty (second t)).

(** The fields of [SerialRecorderApp] the operations read and write:
    [current_label] is the text of the drop-down, [samples_listbox] the
    items of the list box and [curselection] its selected index,
    [record_button] whether the record button is enabled. *)
Record app := {
  wio_port_name : option string;
  current_label : string;
  current_label_dir : option string;
  label_dirs : list string;
  label_options : list string;
  samples_listbox : list string;
  curselection : option nat;
  status_var : string;
  record_button : bool;
}.

Definition set_status (msg : string) (a : app) : app :=
  {| wio_port_name := wio_port_name a; current_label := current_label a;
     current_label_dir := current_label_dir a; label_dirs := label_dirs a;
     label_options := label_options a; samples_listbox := samples_listbox a;
     curselection := curselection a; status_var := msg;
     record_button := record_button a |}.

Definition set_record_button (on : bool) (a : app) : app :=
  {| wio_port_name := wio_port_name a; current_label := current_label a;
     current_label_dir := current_label_dir a; label_dirs := label_dirs a;
     label_options := label_options a; samples_listbox := samples_listbox a;
     curselection := curselection a; status_var := status_var a;
     record_button := on |}.

Definition set_labels (dirs options : list string) (a : app) : app :=
  {| wio_port_name := wio_port_name a; current_label := current_label a;
     current_label_dir := current_label_dir a; label_dirs := dirs;
     label_options := options; samples_listbox := samples_listbox a;
     curselection := curselection a; status_var := status_var a;
     record_button := record_button a |}.

Definition set_current (text : string) (dir : option string) (a : app) : app :=
  {| wio_port_name := wio_port_name a; current_label := text;
     current_label_dir := dir; label_dirs := label_dirs a;
     label_options := label_options a; samples_listbox := samples_listbox a;
     curselection := curselection a; status_var := status_var a;
     record_button := record_button a |}.

(** The list box with new items and a new selection. *)
Definition set_listbox (items : list string) (sel : option nat) (a : app) : app :=
  {| wio_port_name := wio_port_name a; current_label := current_label a;
     current_label_dir := current_label_dir a; label_dirs := label_dirs a;
     label_options := label_options a; samples_listbox := items;
     curselection := sel; status_var := status_var a;
     record_button := record_button a |}.

(** [samples_listbox.selection_set(i)]: an index outside the list selects
    nothing. *)
Definition selection_set (i : Z) (a : app) : app :=
  if decide (0 ≤ i < Z.of_nat (length (samples_listbox a)))%Z
  then set_listbox (samples_listbox a) (Some (Z.to_nat i)) a
  else a.

(** ** Label store *)

Definition is_csv (name : string) : bool := PyStr.endswith ".csv" name.

(** [os.listdir]: the entries, in an order the caller does not rely on. *)
Definition listdir {V} (d : gmap string V) : list string := elements (dom d).

Definition count_samples (files : gmap string string) : nat :=
  length (filter (λ entry, is_csv entry) (listdir files)).

Definition label_option (dirname : string) (count : nat) : string :=
  dirname +:+ " (" +:+ pretty count +:+ " samples)".

(** [list.sort()] and [list.sort(reverse=True)] on strings. *)
Definition sort_asc : list string → list string := merge_sort String.le.
Definition sort_desc : list string → list string := merge_sort (flip String.le).

Definition load_labels (fs : disk) (a : app) : app :=
  let dirs := sort_asc (listdir fs) in
  let options :=
    sort_asc ((λ dirname,
                 label_option dirname
                   (count_samples (default ∅ (fs !! dirname))))
              <$> listdir fs) in
  let a := set_labels dirs options a in
  if decide (options = []) then set_record_button false a else a.

(** The sample files of a label directory as the list box shows them. *)
Definition list_samples (files : gmap string string) : list string :=
  sort_desc (filter (λ filename, is_csv filename) (listdir files)).

Definition load_sample_list (fs : disk) (a : app) : app :=
  let a := set_listbox [] None a in
  if truthy (current_label_dir a) then
    let dir := default "" (current_label_dir a) in
    match fs !! dir with
    | Some files => set_listbox (list_samples files) None a
    | None => set_status ("Error: Label folder '" +:+ dir +:+ "' not found.") a
    end
  else a.

Definition label_selected (fs : disk) (a : app) : app :=
  let selected_option := current_label a in
  let a := set_current selected_option
             (head (PyStr.split " " selected_option)) a in
  let a := load_sample_list fs a in
  set_record_button (truthy (wio_port_name a)) a.

(** [str(e)] of the [OSError]s the model raises by itself. *)
Definition file_exists_error (path : string) : string :=
  "[Errno 17] File exists: '" +:+ path +:+ "'".
Definition file_not_found_error (path : string) : string :=
  "[Errno 2] No such file or directory: '" +:+ path +:+ "'".

(** How [save_data_to_csv]'s file operations can fail for reasons outside
    the model (permissions, a full disk): at [open], or in [writerows]
    once [written] rows are on disk. *)
Inductive write_fault :=
  | NoFault
  | OpenFails (msg : string)
  | WriteFails (written : nat) (msg : string).

Section Store.
Context `{Builtins}.

(** Line 215. *)
Definition sanitize (label_name : string) : string :=
  PyStr.strip isspace
    (PyStr.filter (λ c, isalnum c || bool_decide (c = "_"%char)
                        || bool_decide (c = "-"%char)) label_name).

(** [add_new_label]; [fault] is an error of [os.makedirs] other than the
    directory being there already. *)
Definition add_new_label (fault : option string) (label_name : string)
                         (fs : disk) (a : app) : app * disk :=
  let sanitized_name := sanitize label_name in
  if decide (sanitized_name = "") then
    (set_status "Error: Label name invalid." a, fs)
  else
    let new_dir_path := os_path_join BASE_FOLDER_NAME [sanitized_name] in
    match fs !! sanitized_name, fault with
    | Some _, _ =>
        (set_status ("Error creating label folder: "
                     +:+ file_exists_error new_dir_path) a, fs)
    | None, Some msg =>
        (set_status ("Error creating label folder: " +:+ msg) a, fs)
    | None, None =>
        let fs := <[sanitized_name := ∅]> fs in
        let a := set_status ("Created new label folder: " +:+ sanitized_name) a in
        let a := load_labels fs a in
        let new_option := sanitized_name +:+ " (0 samples)" in
        if decide (new_option ∈ label_options a) then
          let a := set_current new_option (Some sanitized_name) a in
          let a := load_sample_list fs a in
          (set_record_button (truthy (wio_port_name a)) a, fs)
        else (a, fs)
    end.

(** The name and the path of the file a capture is saved to. *)
Definition sample_filename (dir : string) (now : datetime) : string :=
  dir +:+ "_" +:+ strftime now +:+ ".csv".

Definition sample_filepath (dir : string) (now : datetime) : string :=
  os_path_join BASE_FOLDER_NAME [dir; sample_filename dir now].

(** What [writer.writerows(data)] puts in the file. *)
Definition csv_text (data : list (list pyfloat)) : string :=
  Csv.writerows ((λ row : list pyfloat, float_str <$> row) <$> data).

(** [save_data_to_csv]: the new state, the new disk and the value
    returned. *)
Definition save_data_to_csv (now : datetime) (fault : write_fault)
                            (data : list (list pyfloat))
                            (fs : disk) (a : app)
  : app * disk * option string :=
  if bool_decide (data = []) || negb (truthy (current_label_dir a)) then
    (set_status "Error: No data or no label selected to save." a, fs, None)
  else
    let dir := default "" (current_label_dir a) in
    let filename := sample_filename dir now in
    let filepath := sample_filepath dir now in
    match fs !! dir, fault with
    | None, _ =>
        (set_status ("Error saving CSV: " +:+ file_not_found_error filepath) a,
         fs, None)
    | Some _, OpenFails msg =>
        (set_status ("Error saving CSV: " +:+ msg) a, fs, None)
    | Some files, WriteFails written msg =>
        (set_status ("Error saving CSV: " +:+ msg) a,
         <[dir := <[filename := csv_text (take written data)]> files]> fs,
         None)
    | Some files, NoFault =>
        (set_status ("Successfully saved " +:+ pretty (length data)
                     +:+ " samples to " +:+ dir +:+ "/" +:+ filename) a,
         <[dir := <[filename := csv_text data]> files]> fs,
         Some filepath)
    end.

(** [delete_selected_sample]; [fault] is an error of [os.remove] other
    than the file being gone.  The preview and the plot that follow the
    new selection (lines 486 and 488) only draw and set a status that line
    490 overwrites. *)
Definition delete_selected_sample (fault : option string)
                                  (fs : disk) (a : app) : app * disk :=
  match curselection a with
  | Some current_index =>
      if truthy (current_label_dir a) then
        let dir := default "" (current_label_dir a) in
        let filename := default "" (samples_listbox a !! current_index) in
        let filepath := os_path_join BASE_FOLDER_NAME [dir; filename] in
        let missing :=
          (set_status ("Error deleting file: "
                       +:+ file_not_found_error filepath) a, fs) in
        match fs !! dir with
        | None => missing
        | Some files =>
            match files !! filename, fault with
            | None, _ => missing
            | Some _, Some msg =>
                (set_status ("Error deleting file: " +:+ msg) a, fs)
            | Some _, None =>
                let fs := <[dir := delete filename files]> fs in
                let size := length (samples_listbox a) in
                let next_index_to_select : Z :=
                  if decide (1 < size) then
                    if decide (current_index < size - 1)
                    then Z.of_nat current_index
                    else if decide (0 < current_index)
                         then (Z.of_nat current_index - 1)%Z
                    else (-1)%Z
                  else (-1)%Z in
                let a := load_labels fs a in
                let a := label_selected fs a in
                let a := if decide (next_index_to_select ≠ (-1)%Z)
                         then selection_set next_index_to_select a
                         else a in
                (set_status ("Successfully deleted: " +:+ filename) a, fs)
            end
        end
      else (set_status "Error: Please select a sample to delete." a, fs)
  | None => (set_status "Error: Please select a sample to delete." a, fs)
  end.

End Store.

(** ** Concrete runs

    Inputs on which the properties below are exercised, over [Fixture]. *)

Module Scenario.
#[local] Existing Instance Fixture.builtins.

Definition port_name : option string := Some "/dev/ttyACM0".

Definition before_stop : list read_event :=
  [ Line ""; Line "100,1.0,2.0,3.0,4.0,5.0,6.0"; Line "garbage";
    Line "2599,1.0,2.0,3.0,4.0,5.0,7.0" ].

Definition stop_line : string := "2600,1.0,2.0,3.0,4.0,5.0,8.0".

Definition after_stop : list read_event :=
  [ Line "2601,1.0,2.0,3.0,4.0,5.0,9.0" ].

Definition steady_device : device :=
  {| open_error := None;
     incoming := before_stop ++ Line stop_line :: after_stop |}.

Definition unplugged_device : device :=
  {| open_error := None;
     incoming := [ Line "100,1.0,2.0,3.0,4.0,5.0,6.0";
                   ReadError "device disconnected" ] |}.

(** The loop after the first read of [unplugged_device]. *)
Definition after_first_read : loop_state :=
  {| start_ts := Some 100%Z; data := [[1; 2; 3; 4; 5; 6]%Z : list pyfloat] |}.

Definition stop_row : list pyfloat := [1; 2; 3; 4; 5; 8]%Z.

Definition clock : datetime :=
  {| year := 2024; month := 3; day := 7; hour := 9; minute := 5; second := 42 |}.

Definition two_rows : list (list pyfloat) :=
  [ [1; 2; 3; 4; 5; 6]; [1; 2; 3; 4; 5; 7] ]%Z.

(** The label [walk] just created: its directory is empty. *)
Definition fresh_disk : disk := {[ "walk" := ∅ ]}.

Definition fresh : app :=
  {| wio_port_name := port_name;
     current_label := "walk (0 samples)";
     current_label_dir := Some "walk";
     label_dirs := ["walk"];
     label_options := ["walk (0 samples)"];
     samples_listbox := [];
     curselection := None;
     status_var := "Created new label folder: walk";
     record_button := true |}.

(** The same label with three samples. *)
Definition walk_files : gmap string string :=
  {[ "walk_20240307_090541.csv" := "";
     "walk_20240307_090542.csv" := "";
     "walk_20240307_090543.csv" := "" ]}.

Definition walk_disk : disk := {[ "walk" := walk_files ]}.

(** The application showing the label [walk] with item [i] selected. *)
Definition browsing (i : nat) : app :=
  {| wio_port_name := port_name;
     current_label := "walk (3 samples)";
     current_label_dir := Some "walk";
     label_dirs := ["walk"];
     label_options := ["walk (3 samples)"];
     samples_listbox := list_samples walk_files;
     curselection := Some i;
     status_var := "";
     record_button := true |}.

End Scenario.

(** ** Port detection: [auto_detect_wio_port] *)

Definition WIO_VID : Z := 10374.
Definition WIO_PID : Z := 32813.

(** An entry of [list_ports.comports()]; [vid] and [pid] are [None] for a
    port that is not a USB device. *)
Record ListPortInfo := {
  device_name : string;
  vid : option Z;
  pid : option Z;
}.

Definition is_wio (port : ListPortInfo) : Prop :=
  vid port = Some WIO_VID ∧ pid port = Some WIO_PID.

#[global] Instance is_wio_dec port : Decision (is_wio port).
Proof. unfold is_wio. apply _. Defined.

Fixpoint auto_detect_wio_port (comports : list ListPortInfo) : option string :=
  match comports with
  | [] => None
  | port :: rest =>
      if decide (is_wio port) then Some (device_name port)
      else auto_detect_wio_port rest
  end.

(** ** A file of the disk *)

(** The content of the file [name] of the label directory [dir]. *)
Definition file_at (fs : disk) (dir name : string) : option string :=
  fs !! dir ≫= λ files, files !! name.

(** ** The plot, the preview and the record action

    What [numpy], [scipy] and the path functions contribute and the
    program does not fix: the smoothing filter with the program's window
    and order, and the texts of the exceptions they raise. *)

Definition SMOOTHING_WINDOW_LENGTH : nat := 11.
Definition SMOOTHING_POLYNOMIAL_ORDER : nat := 3.

Class Externals `{Builtins} := {
  (** [savgol_filter(x, window_length=11, polyorder=3)] *)
  savgol_filter : list pyfloat → list pyfloat;
  (** [str(e)] when [np.array(data)] or [data_np.shape[1]] raises because
      the rows differ in length *)
  ragged_error : list (list pyfloat) → string;
  (** [str(e)] when [os.path.join] is given [None] *)
  join_none_error : string;
  (** [str(e)] of the reader's [csv.Error] *)
  csv_error : string;
}.

Section Plot.
Context `{Externals}.

(** The axes: the title and the curves plotted, in plotting order. *)
Record figure := {
  title : string;
  curves : list (list pyfloat);
}.

(** After [ax.clear()]. *)
Definition cleared : figure := {| title := ""; curves := [] |}.

Definition no_data : figure :=
  {| title := "No Data to Display"; curves := [] |}.

(** The rows have one length, so that [np.array(data)] is a 2-D array
    whose [shape[1]] is that length. *)
Definition rectangular (data : list (list pyfloat)) : Prop :=
  Forall (λ row, length row = length (default [] (head data))) data.

#[global] Instance rectangular_dec data : Decision (rectangular data).
Proof. unfold rectangular. apply _. Defined.

(** [data_np[:, i]]. *)
Definition column (i : nat) (data : list (list pyfloat)) : list pyfloat :=
  omap (λ row, row !! i) data.

Inductive plot_result :=
  | Drawn (a : app) (fig : figure)
  | PlotRaises (msg : string).

(** [plot_data]: the state (its status may change) and the axes, or the
    exception raised. *)
Definition plot_data (data : list (list pyfloat)) (a : app) : plot_result :=
  if decide (data = []) then Drawn a no_data
  else if decide (rectangular data) then
    if decide (length (default [] (head data)) < 3) then
      Drawn a {| title := "Error: Less than 3 columns available for plotting.";
                 curves := [] |}
    else
      let raw := bool_decide (length data < SMOOTHING_WINDOW_LENGTH) in
      let a :=
        if raw && negb (PyStr.startswith "ERROR:" (status_var a))
        then set_status
               "Warning: Not enough samples for smoothing. Plotting raw data." a
        else a in
      Drawn a
        {| title := "Smoothed Data Preview ("
                    +:+ default "None" (current_label_dir a) +:+ ")";
           curves := (λ i, if raw then column i data
                           else savgol_filter (column i data))
                     <$> [0; 1; 2] |}
  else PlotRaises (ragged_error data).

(** The axes after [load_sample_list]: [plot_data([])] runs once the
    folder has been listed. *)
Definition load_sample_list_plot (fs : disk) (a : app) (fig : figure) : figure :=
  if truthy (current_label_dir a) then
    match fs !! default "" (current_label_dir a) with
    | Some _ => no_data
    | None => fig
    end
  else fig.

(** The axes after [label_selected]. *)
Definition label_selected_plot (fs : disk) (a : app) (fig : figure) : figure :=
  load_sample_list_plot fs
    (set_current (current_label a)
       (head (PyStr.split " " (current_label a))) a) fig.

(** [preview_selected_sample_event].  The list box reports a selection
    only among its items, so [filename] is one of them. *)
Definition preview_selected_sample_event (fs : disk) (a : app) (fig : figure)
  : app * figure :=
  match curselection a with
  | None =>
      (set_status "Ready. Select a sample or record new data." a, no_data)
  | Some i =>
      let failed (msg : string) (fig : figure) :=
        (set_status ("Error previewing file: " +:+ msg) a, fig) in
      let filename := default "" (samples_listbox a !! i) in
      match current_label_dir a with
      | None => failed join_none_error fig
      | Some dir =>
          let filepath := os_path_join BASE_FOLDER_NAME [dir; filename] in
          match file_at fs dir filename with
          | None => failed (file_not_found_error filepath) fig
          | Some content =>
              match load_preview_data content with
              | None => failed csv_error fig
              | Some preview_data =>
                  match plot_data preview_data
                          (set_status ("Loading and plotting: " +:+ filename) a)
                  with
                  | PlotRaises msg => failed msg cleared
                  | Drawn a' fig' =>
                      (set_status
                         ("Previewing: " +:+ filename +:+ " ("
                          +:+ pretty (length preview_data) +:+ " samples)") a',
                       fig')
                  end
              end
          end
      end
  end.

(** [record_and_save_data]: the state, the axes and the disk when the
    handler returns; [None] while [read_serial_data] has not returned. *)
Definition record_and_save_data (now : datetime) (dev : device)
    (fault : write_fault) (fs : disk) (a : app) (fig : figure)
  : option (app * figure * disk) :=
  if negb (truthy (current_label_dir a)) then
    Some (set_status
            "ERROR: Cannot record. Please create or select a data label." a,
          fig, fs)
  else
    let a := set_record_button false a in
    match read_serial_data (wio_port_name a) dev with
    | Blocked _ => None
    | Returns c =>
        let recorded_data := returned c in
        let a := set_status (status c) a in
        let '(a, fs, saved_filepath) :=
          save_data_to_csv now fault recorded_data fs a in
        let '(a, fig) :=
          if truthy saved_filepath then
            let a := load_labels fs a in
            let fig := label_selected_plot fs a fig in
            let a := label_selected fs a in
            if decide (0 < length (samples_listbox a)) then
              preview_selected_sample_event fs
                (selection_set 0 (set_listbox (samples_listbox a) None a)) fig
            else (a, fig)
          else (a, fig) in
        Some (set_record_button true a, fig, fs)
    end.

(** ** Start-up: [__init__] *)

(** [str(e)] of the [AttributeError] raised by [self.canvas.draw()] while
    [self.canvas] is not assigned yet. *)
Definition canvas_missing_error : string :=
  "'SerialRecorderApp' object has no attribute 'canvas'".

(** The state, the axes and the disk once the window is built, from the
    ports of the system and the base folder ([None] when it does not
    exist yet). *)
Definition startup (comports : list ListPortInfo) (base : option disk)
  : app * figure * disk :=
  let wio := auto_detect_wio_port comports in
  let initial_status :=
    match wio with
    | Some name =>
        if bool_decide (name = "")
        then "ERROR: Wio Terminal not found! Check connection."
        else "Wio Terminal found on port: " +:+ name
    | None => "ERROR: Wio Terminal not found! Check connection."
    end in
  let fig := {| title := "Data Preview"; curves := [] |} in
  (* create_base_data_folder *)
  let fs := default ∅ base in
  let status :=
    match base with
    | Some _ => initial_status
    | None => "Created base data folder: " +:+ BASE_FOLDER_NAME +:+ "/"
    end in
  let a := {| wio_port_name := wio; current_label := "";
              current_label_dir := None; label_dirs := [];
              label_options := []; samples_listbox := [];
              curselection := None; status_var := status;
              record_button := truthy wio |} in
  let a := load_labels fs a in
  let a :=
    match label_options a with
    | first :: _ => set_current first (head (PyStr.split " " first)) a
    | [] => set_record_button false (set_current "No Labels" None a)
    end in
  (* load_sample_list: its plot_data([]) finds no canvas yet (the canvas
     is created further down), and the exception is reported *)
  let listed :=
    truthy (current_label_dir a)
    && bool_decide (is_Some (fs !! default "" (current_label_dir a))) in
  let fig := load_sample_list_plot fs a fig in
  let a := load_sample_list fs a in
  let a :=
    if listed
    then set_status ("Error loading samples: " +:+ canvas_missing_error) a
    else a in
  let a :=
    if truthy wio && truthy (current_label_dir a)
    then set_status ("Ready. Recording to '"
                     +:+ default "" (current_label_dir a) +:+ "/'") a
    else a in
  (a, fig, fs).

End Plot.

(** [prompt_new_label]: what the dialog's Create button does with the
    text of the entry. *)
Definition prompt_new_label `{Builtins} (fault : option string)
    (entry_text : string) (fs : disk) (a : app) : app * disk :=
  let new_label := PyStr.strip isspace entry_text in
  if bool_decide (new_label ≠ "") && bool_decide (new_label ∉ label_dirs a)
  then add_new_label fault new_label fs a
  else (a, fs).

(** ** A stand-in for the external functions, to run the model *)

Module PlotFixture.

Definition externals : @Externals Fixture.builtins := {|
  savgol_filter := fmap (M := list) Z.succ : list (@pyfloat Fixture.builtins) → _;
  ragged_error := λ _, "inhomogeneous shape";
  join_none_error := "not NoneType";
  csv_error := "new-line character seen in unquoted field";
|}.

End PlotFixture.

(** ** Further concrete inputs *)

Module Session.
Import Scenario.
#[local] Existing Instance Fixture.builtins.

(** A built-in serial port and the device. *)
Definition ports : list ListPortInfo :=
  [ {| device_name := "/dev/ttyS0"; vid := None; pid := None |};
    {| device_name := "/dev/ttyACM0";
       vid := Some 10374%Z; pid := Some 32813%Z |} ].

(** What [read_serial_data] returns from [steady_device] and from
    [unplugged_device]. *)
Definition steady_capture : capture :=
  {| returned := two_rows; port := Closed;
     status := "Recording finished. Collected 2 samples.";
     unread := after_stop |}.

Definition unplugged_capture : capture :=
  {| returned := []; port := Opened;
     status := "Error: device disconnected"; unread := [] |}.

(** A device that has sent no record [duration_ms] past the first. *)
Definition slow_device : device :=
  {| open_error := None; incoming := before_stop |}.

(** The axes as [__init__] sets them up. *)
Definition blank : figure := {| title := "Data Preview"; curves := [] |}.

(** The label [walk] with one sample, selected. *)
Definition single_files : gmap string string :=
  {[ "walk_20240307_090542.csv" := "" ]}.

Definition single_disk : disk := {[ "walk" := single_files ]}.

Definition single : app :=
  {| wio_port_name := port_name;
     current_label := "walk (1 samples)";
     current_label_dir := Some "walk";
     label_dirs := ["walk"];
     label_options := ["walk (1 samples)"];
     samples_listbox := ["walk_20240307_090542.csv"];
     curselection := Some 0;
     status_var := "";
     record_button := true |}.

End Session.


(** * Properties *)

(** ** Strings *)

Section StringFacts.
Implicit Types (s t : string) (c : ascii) (p space keep : ascii → bool).

Lemma filter_all keep s : PyStr.all keep (PyStr.filter keep s).
Proof.
  induction s as [|c s IH]; [done|]. simpl.
  destruct (keep c) eqn:Hc; [|done]. simpl. by rewrite Hc.
Qed.

Lemma filter_id keep s : PyStr.all keep s → PyStr.filter keep s = s.
Proof.
  induction s as [|c s IH]; [done|]. simpl.
  intros [Hc Hs]%andb_True. destruct (keep c); [|done]. by rewrite IH.
Qed.

Lemma all_lstrip p space s : PyStr.all p s → PyStr.all p (PyStr.lstrip space s).
Proof.
  induction s as [|c s IH]; [done|]. simpl.
  intros [Hc Hs]%andb_True. destruct (space c); [auto|].
  simpl. apply andb_True. auto.
Qed.

Lemma all_rstrip p space s : PyStr.all p s → PyStr.all p (PyStr.rstrip space s).
Proof.
  induction s as [|c s IH]; [done|]. simpl.
  intros [Hc Hs]%andb_True. specialize (IH Hs).
  destruct (PyStr.rstrip space s) as [|c' r].
  - destruct (space c); [done|]. simpl. by rewrite andb_True.
  - change (PyStr.all p (String c (String c' r))) with
      (p c && PyStr.all p (String c' r)). apply andb_True. auto.
Qed.

Lemma all_strip p space s : PyStr.all p s → PyStr.all p (PyStr.strip space s).
Proof. intros. by apply all_rstrip, all_lstrip. Qed.

Lemma lstrip_no_lead space s : PyStr.no_lead space (PyStr.lstrip space s).
Proof.
  induction s as [|c s IH]; [done|]. simpl.
  by destruct (space c) eqn:Hc.
Qed.

Lemma lstrip_id space s : PyStr.no_lead space s → PyStr.lstrip space s = s.
Proof. destruct s as [|c s]; [done|]. simpl. by intros ->. Qed.

Lemma rstrip_no_lead space s :
  PyStr.no_lead space s → PyStr.no_lead space (PyStr.rstrip space s).
Proof.
  destruct s as [|c s]; [done|]. simpl. intros Hc.
  destruct (PyStr.rstrip space s); [by rewrite Hc|done].
Qed.

Lemma rstrip_idemp space s :
  PyStr.rstrip space (PyStr.rstrip space s) = PyStr.rstrip space s.
Proof.
  induction s as [|c s IH]; [done|]. simpl.
  destruct (PyStr.rstrip space s) as [|c' r] eqn:Hr.
  - destruct (space c) eqn:Hc; [done|]. simpl. by rewrite Hc.
  - change (PyStr.rstrip space (String c (String c' r)))
      with (match PyStr.rstrip space (String c' r) with
            | "" => if space c then "" else String c ""
            | r' => String c r'
            end).
    by rewrite IH.
Qed.

Lemma strip_idemp space s :
  PyStr.strip space (PyStr.strip space s) = PyStr.strip space s.
Proof.
  unfold PyStr.strip.
  rewrite (lstrip_id space (PyStr.rstrip _ _)).
  - apply rstrip_idemp.
  - apply rstrip_no_lead, lstrip_no_lead.
Qed.

Lemma append_nil_r s : s +:+ "" = s.
Proof.
  induction s as [|c s IH]; [done|].
  unfold String.app in *. simpl. by rewrite IH.
Qed.

Lemma append_assoc s t u : (s +:+ t) +:+ u = s +:+ t +:+ u.
Proof.
  induction s as [|c s IH]; [done|].
  unfold String.app in *. simpl. by rewrite IH.
Qed.

Lemma append_cons c s t : String c s +:+ t = String c (s +:+ t).
Proof. done. Qed.

Lemma append_nil_l s : "" +:+ s = s.
Proof. done. Qed.

End StringFacts.
(** ** The capture loop *)

Section CaptureFacts.
Context `{Builtins}.

Implicit Types (st : loop_state) (reads pre rest : list read_event).

Lemma records_cons_line raw reads :
  records (Line raw :: reads)
  = match parse_line raw with
    | Some r => r :: records reads
    | None => records reads
    end.
Proof. unfold records. simpl. by destruct (parse_line raw). Qed.

Lemma parse_line_None_iff raw :
  parse_line raw = None ↔
  length (PyStr.split "," (PyStr.strip isspace raw)) ≠ DATA_COLUMNS + 1
  ∨ py_int (default "" (head (PyStr.split "," (PyStr.strip isspace raw)))) = None
  ∨ Exists (λ x, py_float x = None)
           (tail (PyStr.split "," (PyStr.strip isspace raw))).
Proof.
  unfold parse_line.
  destruct (decide (PyStr.strip isspace raw = "")) as [->|Hne].
  { simpl. split; [intros _; left; discriminate|done]. }
  set (parts := PyStr.split "," (PyStr.strip isspace raw)).
  destruct (decide (length parts ≠ DATA_COLUMNS + 1)) as [Hlen|Hlen].
  { split; [by left|done]. }
  destruct (py_int (default "" (head parts))) as [t|] eqn:Ht; simpl.
  - destruct (mapM py_float (tail parts)) as [fs|] eqn:Hfs; simpl.
    + split; [done|]. intros [?|[?|Hex]]; [done..|].
      apply mapM_None in Hex. congruence.
    + split; [|done]. intros _. right. right. by apply mapM_None.
  - split; [|done]. intros _. right. by left.
Qed.

Lemma loop_body_malformed st raw :
  parse_line raw = None → loop_body st (Line raw) = Continue st.
Proof. intros Hp. simpl. by rewrite Hp. Qed.

Lemma zero_point_nil st t : zero_point st [] t = default t (start_ts st).
Proof. done. Qed.

Lemma zero_point_skip st raw pre t :
  parse_line raw = None →
  zero_point st (Line raw :: pre) t = zero_point st pre t.
Proof. intros Hp. unfold zero_point. by rewrite records_cons_line, Hp. Qed.

(** A first record fixes the zero point for all that follows. *)
Lemma zero_point_record st raw pre t t1 floats1 d :
  parse_line raw = Some (t1, floats1) →
  zero_point st (Line raw :: pre) t = default t1 (start_ts st)
  ∧ zero_point {| start_ts := Some (default t1 (start_ts st)); data := d |} pre t
    = default t1 (start_ts st).
Proof.
  intros Hp. unfold zero_point. rewrite records_cons_line, Hp.
  by destruct (start_ts st).
Qed.

Lemma read_loop_cons st ev reads :
  read_loop st (ev :: reads)
  = match loop_body st ev with
    | Continue st' => read_loop st' reads
    | Break st' => Broke st' reads
    | Raise msg => Raised msg st reads
    end.
Proof. done. Qed.

Lemma loop_body_record st raw t1 floats1 :
  parse_line raw = Some (t1, floats1) →
  loop_body st (Line raw)
  = if decide (duration_ms ≤ t1 - default t1 (start_ts st))%Z
    then Break {| start_ts := Some (default t1 (start_ts st)); data := data st |}
    else Continue {| start_ts := Some (default t1 (start_ts st));
                     data := data st ++ [floats1] |}.
Proof. intros Hp. simpl. by rewrite Hp. Qed.

Lemma read_loop_broke st reads st' rest :
  read_loop st reads = Broke st' rest →
  ∃ pre stop t floats,
    reads = pre ++ Line stop :: rest
    ∧ Forall is_line pre
    ∧ parse_line stop = Some (t, floats)
    ∧ start_ts st' = Some (zero_point st pre t)
    ∧ data st' = data st ++ (records pre).*2
    ∧ Forall (λ r, (r.1 - zero_point st pre t < duration_ms)%Z) (records pre)
    ∧ (duration_ms ≤ t - zero_point st pre t)%Z.
Proof.
  revert st. induction reads as [|ev reads IH]; intros st Hrun; [done|].
  rewrite read_loop_cons in Hrun.
  destruct ev as [raw|msg]; [|done].
  destruct (parse_line raw) as [[t1 fs1]|] eqn:Hp.
  - rewrite (loop_body_record _ _ _ _ Hp) in Hrun.
    destruct (decide _) as [Hge|Hlt] in Hrun.
    + injection Hrun as <- <-. exists [], raw, t1, fs1.
      rewrite zero_point_nil. simpl. rewrite app_nil_r.
      repeat split; auto.
    + destruct (IH _ Hrun)
        as (pre & stop & t & fs & -> & Hl & Hs & Hz & Hd & Hall & Hge).
      exists (Line raw :: pre), stop, t, fs.
      destruct (zero_point_record st raw pre t t1 fs1 (data st ++ [fs1]) Hp)
        as [-> Hz'].
      rewrite Hz' in *. rewrite records_cons_line, Hp.
      split_and!; [done|by constructor|done|done| | |done].
      * rewrite Hd. simpl. by rewrite <- app_assoc.
      * constructor; [simpl; lia|done].
  - rewrite (loop_body_malformed _ _ Hp) in Hrun.
    destruct (IH _ Hrun)
      as (pre & stop & t & fs & -> & Hl & Hs & Hz & Hd & Hall & Hge).
    exists (Line raw :: pre), stop, t, fs.
    rewrite (zero_point_skip _ _ _ _ Hp), records_cons_line, Hp.
    split_and!; [done|by constructor|done..].
Qed.

Lemma read_loop_breaks st pre stop rest t floats :
  Forall is_line pre →
  parse_line stop = Some (t, floats) →
  Forall (λ r, (r.1 - zero_point st pre t < duration_ms)%Z) (records pre) →
  (duration_ms ≤ t - zero_point st pre t)%Z →
  read_loop st (pre ++ Line stop :: rest)
  = Broke {| start_ts := Some (zero_point st pre t);
             data := data st ++ (records pre).*2 |} rest.
Proof.
  revert st. induction pre as [|ev pre IH]; intros st Hl Hs Hall Hge.
  - rewrite zero_point_nil in *. rewrite app_nil_l, read_loop_cons.
    rewrite (loop_body_record _ _ _ _ Hs), decide_True by done.
    simpl. by rewrite app_nil_r.
  - apply Forall_cons in Hl as [Hev Hl]. destruct ev as [raw|]; [|done].
    rewrite <- app_comm_cons, read_loop_cons.
    destruct (parse_line raw) as [[t1 fs1]|] eqn:Hp.
    + destruct (zero_point_record st raw pre t t1 fs1 (data st ++ [fs1]) Hp)
        as [Hz Hz'].
      rewrite Hz in *. rewrite records_cons_line, Hp in *.
      apply Forall_cons in Hall as [Hfirst Hall]. simpl in Hfirst.
      rewrite (loop_body_record _ _ _ _ Hp), decide_False by lia.
      rewrite IH; rewrite ?Hz'; auto.
      simpl. by rewrite <- app_assoc.
    + rewrite (zero_point_skip _ _ _ _ Hp) in *.
      rewrite records_cons_line, Hp in *.
      rewrite (loop_body_malformed _ _ Hp). by apply IH.
Qed.

End CaptureFacts.

Section CaptureClaims.
Context `{Builtins}.

(** C1.  A capture that [read_serial_data] returns holds exactly the
    records read before the first one whose time stamp is [duration_ms]
    (2500 ms) or more past the first record's: every record it includes
    is strictly closer than that, the record that reaches the bound is
    left out, and the loop stops at it, the reads that follow staying
    unread.  Conversely, on reads of this shape the call returns that
    capture and closes the port. *)
Theorem read_serial_data_window (wio : option string) (dev : device) :
  duration_ms = 2500%Z
  ∧ (∀ c, read_serial_data wio dev = Returns c → returned c ≠ [] →
       ∃ pre stop t floats t0,
         incoming dev = pre ++ Line stop :: unread c
         ∧ head (records pre).*1 = Some t0
         ∧ returned c = (records pre).*2
         ∧ Forall (λ r, (r.1 - t0 < duration_ms)%Z) (records pre)
         ∧ parse_line stop = Some (t, floats)
         ∧ (duration_ms ≤ t - t0)%Z)
  ∧ (∀ pre stop rest t floats t0,
       truthy wio → open_error dev = None →
       incoming dev = pre ++ Line stop :: rest →
       Forall is_line pre →
       head (records pre).*1 = Some t0 →
       Forall (λ r, (r.1 - t0 < duration_ms)%Z) (records pre) →
       parse_line stop = Some (t, floats) →
       (duration_ms ≤ t - t0)%Z →
       ∃ c, read_serial_data wio dev = Returns c
            ∧ returned c = (records pre).*2
            ∧ port c = Closed
            ∧ unread c = rest).
Proof.
  split; [done|]. split.
  - intros c Hret Hne. unfold read_serial_data in Hret.
    destruct (truthy wio); simpl in Hret; [|by simplify_eq].
    destruct (open_error dev); [by simplify_eq|].
    destruct (read_loop initial (incoming dev)) as [st' rest|?|?] eqn:Hrun;
      [|by simplify_eq..].
    injection Hret as <-. simpl in *.
    apply read_loop_broke in Hrun
      as (pre & stop & t & fs & Hin & _ & Hs & _ & Hd & Hall & Hge).
    unfold zero_point in *. simpl in *.
    destruct (head (records pre).*1) as [t0|] eqn:Hhd; simpl in *.
    + by exists pre, stop, t, fs, t0.
    + unfold duration_ms in Hge. lia.
  - intros pre stop rest t fs t0 Hwio Hopen Hin Hl Hhd Hall Hs Hge.
    unfold read_serial_data. destruct (truthy wio); [simpl|done].
    rewrite Hopen, Hin.
    rewrite (read_loop_breaks initial pre stop rest t fs); try done.
    + eexists. by split_and!.
    + unfold zero_point. by rewrite Hhd.
    + unfold zero_point. by rewrite Hhd.
Qed.

(** C4.  A line that does not split on commas into [DATA_COLUMNS + 1]
    (seven) pieces, or whose first piece is not an integer, or one of
    whose other pieces is not a float, is discarded: the iteration leaves
    the zero point and the collected data as they were, and the capture
    goes on as if the line had not been read. *)
Theorem malformed_line_discarded (st : loop_state) (raw : string)
                                 (rest : list read_event) :
  length (PyStr.split "," (PyStr.strip isspace raw)) ≠ DATA_COLUMNS + 1
  ∨ py_int (default "" (head (PyStr.split "," (PyStr.strip isspace raw)))) = None
  ∨ Exists (λ x, py_float x = None)
           (tail (PyStr.split "," (PyStr.strip isspace raw))) →
  DATA_COLUMNS + 1 = 7
  ∧ loop_body st (Line raw) = Continue st
  ∧ records (Line raw :: rest) = records rest
  ∧ read_loop st (Line raw :: rest) = read_loop st rest.
Proof.
  intros Hbad%parse_line_None_iff. split; [done|].
  rewrite read_loop_cons, records_cons_line, (loop_body_malformed _ _ Hbad), Hbad.
  done.
Qed.

(** C5.  When the port cannot be opened, or a read raises while the loop
    is still running, [read_serial_data] returns the empty list whatever
    the loop had collected. *)
Theorem read_error_discards_capture (wio : option string) (dev : device) :
  (∀ msg, truthy wio → open_error dev = Some msg →
     ∃ c, read_serial_data wio dev = Returns c
          ∧ returned c = [] ∧ status c = "Error: " +:+ msg)
  ∧ (∀ pre msg rest st,
       truthy wio → open_error dev = None →
       incoming dev = pre ++ ReadError msg :: rest →
       read_loop initial pre = Waiting st →
       ∃ c, read_serial_data wio dev = Returns c
            ∧ returned c = [] ∧ status c = "Error: " +:+ msg).
Proof.
  split.
  - intros msg Hwio Hopen. unfold read_serial_data.
    destruct (truthy wio); [simpl|done]. rewrite Hopen. by eexists.
  - intros pre msg rest st Hwio Hopen Hin Hrun. unfold read_serial_data.
    destruct (truthy wio); [simpl|done]. rewrite Hopen, Hin.
    assert (read_loop initial (pre ++ ReadError msg :: rest) = Raised msg st rest)
      as ->; [|by eexists].
    revert Hrun. generalize initial. clear.
    induction pre as [|ev pre IH]; intros st0 Hrun.
    + by simplify_eq/=.
    + rewrite <- app_comm_cons, read_loop_cons. rewrite read_loop_cons in Hrun.
      destruct (loop_body st0 ev); [by apply IH|done..].
Qed.

End CaptureClaims.

(** ** Labels and sample files *)

Section StoreFacts.
Context `{Builtins}.

Lemma sanitize_idemp s : sanitize (sanitize s) = sanitize s.
Proof.
  unfold sanitize. rewrite filter_id.
  - apply strip_idemp.
  - apply all_strip, filter_all.
Qed.

Lemma endswith_slash_app p d :
  d ≠ "" → PyStr.all (λ c, negb (bool_decide (c = "/"%char))) d →
  PyStr.endswith "/" (p +:+ d) = false.
Proof.
  intros Hd Hall. induction p as [|c p IH].
  - rewrite append_nil_l. clear Hd.
    induction d as [|c d IH]; [done|].
    simpl in Hall. apply andb_True in Hall as [Hc Hall].
    simpl. rewrite (IH Hall), orb_false_r.
    apply bool_decide_eq_false. intros [= -> ->]. done.
  - rewrite append_cons. simpl. rewrite IH, orb_false_r.
    apply bool_decide_eq_false. intros [= _ Hnil].
    destruct p, d; done.
Qed.

Lemma os_path_join_plain a b c :
  PyStr.startswith "/" b = false → PyStr.startswith "/" c = false →
  a ≠ "" → PyStr.endswith "/" a = false →
  PyStr.endswith "/" (a +:+ "/" +:+ b) = false →
  os_path_join a [b; c] = a +:+ "/" +:+ b +:+ "/" +:+ c.
Proof.
  intros Hb Hc Ha Hea Heb. unfold os_path_join. cbn [foldl].
  rewrite Hb, Hc, Hea, (bool_decide_eq_false_2 (a = "")) by done.
  cbn [orb]. rewrite Heb, bool_decide_eq_false_2.
  - cbn [orb]. by rewrite !append_assoc.
  - by destruct a.
Qed.

Lemma sample_filepath_plain dir now :
  dir ≠ "" → PyStr.all (λ c, negb (bool_decide (c = "/"%char))) dir →
  sample_filepath dir now
  = "samples/" +:+ dir +:+ "/" +:+ sample_filename dir now.
Proof.
  intros Hne Hall. unfold sample_filepath, sample_filename.
  destruct dir as [|c dir]; [done|].
  assert (c ≠ "/"%char) as Hc.
  { simpl in Hall. apply andb_True in Hall as [Hc _].
    apply negb_True in Hc. by rewrite bool_decide_spec in Hc. }
  rewrite os_path_join_plain; [done| | |done|done|].
  - simpl. by rewrite bool_decide_eq_false_2.
  - rewrite append_cons. simpl. by rewrite bool_decide_eq_false_2.
  - change (BASE_FOLDER_NAME +:+ "/" +:+ String c dir)
      with ("samples/" +:+ String c dir).
    by apply endswith_slash_app.
Qed.

End StoreFacts.

Section StoreClaims.
Context `{Builtins}.

(** C7.  Sanitising a label name twice gives what sanitising it once
    gives, and a name whose sanitised form is empty is rejected by
    [add_new_label]: the status reports it and the disk is unchanged, so
    no directory is created. *)
Theorem sanitize_idempotent_empty_rejected :
  (∀ s, sanitize (sanitize s) = sanitize s)
  ∧ (∀ fault raw fs a,
       sanitize raw = "" →
       add_new_label fault raw fs a
       = (set_status "Error: Label name invalid." a, fs)).
Proof.
  split; [apply sanitize_idemp|].
  intros fault raw fs a Hs. unfold add_new_label. by rewrite Hs.
Qed.

(** C8.  [save_data_to_csv] with an empty capture or without a label
    reports an error, returns [None] and leaves the disk as it was.  With
    a capture, a label whose directory exists and no failure of the file
    operations, it stores the capture in the label's directory under
    [{label}_{YYYYMMDD_HHMMSS}.csv], stamped with the clock at the time
    of the call, and returns the path of that file; and whenever it
    returns a path, this is what has happened. *)
Theorem save_data_to_csv_contract (now : datetime) (fault : write_fault)
    (data : list (list pyfloat)) (fs : disk) (a : app) :
  (data = [] ∨ ¬ truthy (current_label_dir a) →
     save_data_to_csv now fault data fs a
     = (set_status "Error: No data or no label selected to save." a, fs, None))
  ∧ (∀ dir files,
       data ≠ [] → current_label_dir a = Some dir → dir ≠ "" →
       fs !! dir = Some files → fault = NoFault →
       ∃ a', save_data_to_csv now fault data fs a
             = (a',
                <[dir := <[sample_filename dir now := csv_text data]> files]> fs,
                Some (sample_filepath dir now)))
  ∧ (∀ a' fs' path,
       save_data_to_csv now fault data fs a = (a', fs', Some path) →
       ∃ dir files,
         data ≠ [] ∧ current_label_dir a = Some dir ∧ dir ≠ ""
         ∧ fs !! dir = Some files
         ∧ fs' = <[dir := <[sample_filename dir now := csv_text data]> files]>
                   fs
         ∧ path = sample_filepath dir now
         ∧ sample_filename dir now = dir +:+ "_" +:+ strftime now +:+ ".csv"
         ∧ (PyStr.all (λ c, negb (bool_decide (c = "/"%char))) dir →
            path = "samples/" +:+ dir +:+ "/" +:+ sample_filename dir now)).
Proof.
  split_and!.
  - intros Hrej. unfold save_data_to_csv.
    destruct Hrej as [->|Hdir]; [done|].
    destruct (truthy (current_label_dir a)); [done|].
    by rewrite orb_true_r.
  - intros dir files Hdata Hdir Hne Hfs ->. unfold save_data_to_csv.
    rewrite Hdir. simpl. rewrite Hfs.
    rewrite !bool_decide_eq_false_2 by done. simpl. by eexists.
  - intros a' fs' path Hsave. unfold save_data_to_csv in Hsave.
    destruct (bool_decide (data = [])) eqn:Hdata; [done|].
    apply bool_decide_eq_false in Hdata.
    destruct (current_label_dir a) as [dir|] eqn:Hdir; [|done].
    simpl in Hsave.
    destruct (bool_decide (dir = "")) eqn:Hne; [done|].
    apply bool_decide_eq_false in Hne. simpl in Hsave.
    destruct (fs !! dir) as [files|] eqn:Hfs; [|done].
    destruct fault; simplify_eq.
    exists dir, files. split_and!; try done.
    intros Hall. by apply sample_filepath_plain.
Qed.

(** C3 (as the code has it).  A save that fails when the file is
    opened, because the label directory is gone or because [open]
    raises, creates no file.  A save that fails in [writerows], after the
    file was opened, returns [None] and leaves the sample file on disk.
    A [delete_selected_sample] that reports an error leaves the disk, and
    with it the target file, as it was. *)
Theorem failed_save_and_failed_delete (now : datetime)
    (data : list (list pyfloat)) (fs : disk) (a : app) :
  (∀ fault,
     fs !! default "" (current_label_dir a) = None
     ∨ (∃ msg, fault = OpenFails msg) →
     ∃ a', save_data_to_csv now fault data fs a = (a', fs, None))
  ∧ (∀ written msg dir files,
       data ≠ [] → current_label_dir a = Some dir → dir ≠ "" →
       fs !! dir = Some files →
       ∃ a' fs',
         save_data_to_csv now (WriteFails written msg) data fs a = (a', fs', None)
         ∧ is_Some (fs' !! dir
                    ≫= (λ files', files' !! sample_filename dir now)))
  ∧ (∀ fault a' fs',
       delete_selected_sample fault fs a = (a', fs') →
       fault ≠ None ∨ PyStr.startswith "Error" (status_var a') →
       fs' = fs).
Proof.
  split_and!.
  - intros fault Hfail. unfold save_data_to_csv.
    destruct (_ || _); [by eexists|].
    destruct Hfail as [->|[msg ->]]; [by eexists|].
    destruct (fs !! _); by eexists.
  - intros written msg dir files Hdata Hdir Hne Hfs. unfold save_data_to_csv.
    rewrite Hdir. simpl. rewrite Hfs.
    rewrite !bool_decide_eq_false_2 by done. simpl.
    eexists _, _. split; [done|].
    rewrite lookup_insert_eq. simpl. rewrite lookup_insert_eq. by eexists.
  - intros fault a' fs' Hdel Hfail. unfold delete_selected_sample in Hdel.
    destruct (curselection a) as [i|]; [|by simplify_eq].
    destruct (truthy (current_label_dir a)); [|by simplify_eq].
    destruct (fs !! _) as [files|]; [|by simplify_eq].
    destruct (files !! _); [|by simplify_eq].
    destruct fault as [msg|]; [by simplify_eq|].
    destruct Hfail as [?|Hst]; [done|].
    injection Hdel as <- <-. by simpl in Hst.
Qed.

End StoreClaims.

(** ** The list box and the disk *)

Section ListingFacts.

#[local] Instance string_ge_total : Total (flip String.le).
Proof. intros s1 s2. destruct (total String.le s1 s2); auto. Qed.

#[local] Instance string_ge_antisymm : AntiSymm (=) (flip String.le).
Proof. intros s1 s2 H1 H2. by apply (anti_symm String.le). Qed.

Lemma StronglySorted_delete {A} (R : relation A) (l : list A) (i : nat) :
  StronglySorted R l → StronglySorted R (delete i l).
Proof.
  intros Hl. destruct (l !! i) as [x|] eqn:Hi.
  - apply list_elem_of_split_length in Hi as (l1 & l2 & -> & ->).
    rewrite delete_middle.
    apply StronglySorted_app in Hl as (Hcross & Hl1 & Hl2).
    apply StronglySorted_cons in Hl2 as [_ Hl2].
    apply StronglySorted_app_2; [|done..].
    intros x1 x2 Hx1 Hx2. apply Hcross; [done|by right].
  - revert i Hi. induction l as [|y l IH]; intros [|i] Hi; try done.
    simpl in *. apply StronglySorted_cons in Hl as [Hy Hl].
    assert (delete i l = l) as ->; [|by constructor].
    clear -Hi. revert i Hi. induction l as [|z l IH]; intros [|i] Hi; try done.
    simpl in *. by rewrite IH.
Qed.

Lemma list_samples_sorted files :
  StronglySorted (flip String.le) (list_samples files).
Proof. apply StronglySorted_merge_sort; apply _. Qed.

Lemma list_samples_NoDup files : NoDup (list_samples files).
Proof.
  unfold list_samples, sort_desc. rewrite merge_sort_Permutation.
  apply NoDup_filter, NoDup_elements.
Qed.

Lemma elem_of_list_samples files name :
  name ∈ list_samples files ↔ is_csv name ∧ is_Some (files !! name).
Proof.
  unfold list_samples, sort_desc, listdir.
  rewrite merge_sort_Permutation, list_elem_of_filter, elem_of_elements.
  by rewrite elem_of_dom.
Qed.

(** Removing a listed file from the directory removes its item from the
    list and moves nothing else. *)
Lemma list_samples_delete files i name :
  list_samples files !! i = Some name →
  list_samples (delete name files) = delete i (list_samples files).
Proof.
  intros Hi.
  apply (StronglySorted_unique (flip String.le)).
  - apply list_samples_sorted.
  - apply StronglySorted_delete, list_samples_sorted.
  - pose proof (list_samples_NoDup files) as Hnd.
    apply NoDup_Permutation.
    + apply list_samples_NoDup.
    + eapply sublist_NoDup; [done|apply sublist_delete].
    + intros x. rewrite elem_of_list_samples.
      assert (x ∈ delete i (list_samples files)
              ↔ x ∈ list_samples files ∧ x ≠ name) as ->.
      { apply list_elem_of_split_length in Hi as (l1 & l2 & Hl & ->).
        rewrite Hl in Hnd |- *. rewrite delete_middle.
        apply NoDup_app in Hnd as (_ & Hpre & [Hpost _]%NoDup_cons).
        rewrite !elem_of_app, elem_of_cons. split.
        - intros [Hx|Hx]; (split; [auto|]); intros ->; [|done].
          apply (Hpre name Hx). by left.
        - intros [[?|[?|?]] ?]; auto. done. }
      rewrite elem_of_list_samples.
      destruct (decide (x = name)) as [->|Hne].
      * rewrite lookup_delete_eq. split; [by intros [_ [? ?]]|by intros [_ ?]].
      * rewrite lookup_delete_ne by done.
        split; [by intros [? ?]|by intros [[? ?] ?]].
Qed.

End ListingFacts.

Section SelectionClaims.
Context `{Builtins}.

Lemma load_labels_keeps fs a :
  current_label (load_labels fs a) = current_label a
  ∧ wio_port_name (load_labels fs a) = wio_port_name a.
Proof. unfold load_labels. by destruct (decide _). Qed.

Lemma label_selected_listbox fs a dir files :
  head (PyStr.split " " (current_label a)) = Some dir → dir ≠ "" →
  fs !! dir = Some files →
  samples_listbox (label_selected fs a) = list_samples files
  ∧ curselection (label_selected fs a) = None.
Proof.
  intros Hdir Hne Hfs. unfold label_selected, load_sample_list. simpl.
  rewrite Hdir. simpl. rewrite bool_decide_eq_false_2 by done. simpl.
  by rewrite Hfs.
Qed.

(** C9.  With the list box showing the files of the current label and
    more than one of them, deleting the selected sample removes its item
    and nothing else; when it was the last item the selection moves to
    the index before it, which is inside the new list, and when it was
    not, the selection stays at the same index, which now shows the item
    that was below. *)
Theorem delete_moves_selection (fs : disk) (a : app) (dir : string)
    (files : gmap string string) (i : nat) (filename : string) :
  curselection a = Some i →
  current_label_dir a = Some dir → dir ≠ "" →
  head (PyStr.split " " (current_label a)) = Some dir →
  fs !! dir = Some files →
  samples_listbox a = list_samples files →
  samples_listbox a !! i = Some filename →
  1 < length (samples_listbox a) →
  ∃ a' fs',
    delete_selected_sample None fs a = (a', fs')
    ∧ fs' = <[dir := delete filename files]> fs
    ∧ samples_listbox a' = delete i (samples_listbox a)
    ∧ (i = length (samples_listbox a) - 1 →
       curselection a' = Some (i - 1)
       ∧ i - 1 < length (samples_listbox a')
       ∧ samples_listbox a' !! (i - 1) = samples_listbox a !! (i - 1))
    ∧ (i < length (samples_listbox a) - 1 →
       curselection a' = Some i
       ∧ samples_listbox a' !! i = samples_listbox a !! S i).
Proof.
  intros Hsel Hdir Hne Hlabel Hfs Hsync Hi Hsize.
  assert (is_Some (files !! filename)) as [content Hfile].
  { apply (elem_of_list_samples files filename). rewrite <- Hsync.
    by eapply list_elem_of_lookup_2. }
  pose proof (lookup_lt_Some _ _ _ Hi) as Hlt.
  unfold delete_selected_sample.
  rewrite Hsel, Hdir, Hi. simpl.
  rewrite bool_decide_eq_false_2 by done. simpl.
  rewrite Hfs, Hfile.
  set (fs' := <[dir:=delete filename files]> fs).
  destruct (load_labels_keeps fs' a) as [Hcur _].
  destruct (label_selected_listbox fs' (load_labels fs' a) dir
              (delete filename files)) as [Hbox Hnosel].
  { by rewrite Hcur. }
  { exact Hne. }
  { unfold fs'. by rewrite lookup_insert_eq. }
  rewrite Hsync in Hi. rewrite (list_samples_delete _ _ _ Hi), <- Hsync in Hbox.
  assert (length (delete i (samples_listbox a)) = length (samples_listbox a) - 1)
    as Hlen by (apply length_delete; rewrite Hsync; eauto).
  eexists _, fs'. split; [done|]. split; [done|].
  rewrite (decide_True (P := 1 < _)) by done.
  destruct (decide (i < length (samples_listbox a) - 1)) as [Hmid|Hlast].
  - rewrite decide_True by lia.
    unfold selection_set. rewrite Hbox, Hlen, decide_True by lia.
    simpl. rewrite Nat2Z.id. split_and!; [done|lia|].
    intros _. split; [done|]. by apply list_lookup_delete_ge.
  - rewrite (decide_True (P := 0 < _)) by lia. rewrite decide_True by lia.
    unfold selection_set. rewrite Hbox, Hlen, decide_True by lia.
    simpl. split_and!; [done| |lia].
    intros _.
    replace (Z.to_nat (Z.of_nat i - 1)) with (i - 1) by lia.
    split_and!; [done|lia|]. apply list_lookup_delete_lt. lia.
Qed.

End SelectionClaims.

(** ** Writing a sample and reading it back *)

Section CsvFacts.
Import PyStr Csv.
Implicit Types (s t f : string) (c : ascii) (row acc : list string) (p : parser).

Lemma plain_char_not_newline c : plain_char c → is_newline c = false.
Proof.
  unfold plain_char, special. destruct (is_newline c); [|done].
  by rewrite orb_true_r.
Qed.

Lemma plain_char_not_delimiter c : plain_char c → c ≠ delimiter.
Proof.
  unfold plain_char, special. intros Hc ->.
  by rewrite bool_decide_eq_true_2 in Hc.
Qed.

Lemma plain_char_not_quote c : plain_char c → c ≠ quotechar.
Proof.
  unfold plain_char, special. intros Hc ->.
  rewrite (bool_decide_eq_true_2 (quotechar = quotechar)) in Hc by done.
  by rewrite orb_true_r in Hc.
Qed.

Lemma all_app (q : ascii → bool) s t : all q (s +:+ t) = all q s && all q t.
Proof.
  induction s as [|c s IH]; [done|].
  rewrite append_cons. simpl. by rewrite IH, andb_assoc.
Qed.

(** The writer leaves plain fields as they are. *)
Lemma write_field_plain alone f : plain f → write_field alone f = f.
Proof.
  intros [Hne Hall]. unfold write_field.
  apply Is_true_true in Hall. rewrite Hall. simpl.
  by rewrite bool_decide_eq_false_2, andb_false_r.
Qed.

Lemma writerow_plain row :
  Forall plain row →
  writerow row = join (String delimiter "") row +:+ lineterminator.
Proof.
  intros Hrow. unfold writerow. f_equal. f_equal.
  generalize (bool_decide (length row = 1)). intros alone.
  induction Hrow as [|f row Hf Hrow IH]; [done|].
  rewrite fmap_cons, IH. by rewrite write_field_plain.
Qed.

Lemma join_plain_unbroken row :
  Forall plain row → unbroken (join (String delimiter "") row).
Proof.
  unfold unbroken. induction 1 as [|f row [_ Hf] Hrow IH]; [done|].
  assert (all (λ c, negb (is_newline c)) f) as Hf'.
  { clear -Hf. induction f as [|c f IH]; [done|].
    simpl in *. apply andb_True in Hf as [Hc Hf]. apply andb_True.
    split; [|auto]. by rewrite plain_char_not_newline. }
  destruct row as [|g row]; [done|].
  change (join (String delimiter "") (f :: g :: row))
    with (f +:+ String delimiter "" +:+ join (String delimiter "") (g :: row)).
  rewrite !all_app. apply andb_True. split; [done|].
  apply andb_True. split; [done|apply IH].
Qed.

Lemma universal_newlines_unbroken s t :
  unbroken s → universal_newlines (s +:+ t) = s +:+ universal_newlines t.
Proof.
  unfold unbroken. induction s as [|c s IH]; [done|].
  simpl. intros [Hc Hs]%andb_True. rewrite !append_cons. simpl.
  apply negb_True in Hc. unfold is_newline in Hc.
  destruct (decide (c = CR)) as [->|_].
  { by rewrite bool_decide_eq_true_2 in Hc. }
  by rewrite IH.
Qed.

Lemma universal_newlines_terminator t :
  universal_newlines (lineterminator +:+ t) = String LF (universal_newlines t).
Proof. done. Qed.

Lemma lines_unbroken s t :
  unbroken s → lines (s +:+ String LF t) = (s +:+ String LF "") :: lines t.
Proof.
  unfold unbroken. induction s as [|c s IH].
  - intros _. by rewrite !append_nil_l.
  - simpl. intros [Hc Hs]%andb_True. rewrite !append_cons. simpl.
    apply negb_True in Hc. unfold is_newline in Hc.
    destruct (decide (c = LF)) as [->|_].
    { rewrite (bool_decide_eq_true_2 (LF = LF)) in Hc by done.
      by rewrite orb_true_r in Hc. }
    by rewrite IH.
Qed.

(** The text of the file as the reader's lines. *)
Lemma lines_of_rows (rows : list (list string)) :
  Forall (Forall plain) rows →
  lines (universal_newlines (writerows rows))
  = (λ row, join (String delimiter "") row +:+ String LF "") <$> rows.
Proof.
  induction 1 as [|row rows Hrow Hrows IH]; [done|].
  unfold writerows. rewrite fmap_cons. simpl concat.
  rewrite writerow_plain by done. rewrite append_assoc.
  rewrite universal_newlines_unbroken by by apply join_plain_unbroken.
  rewrite universal_newlines_terminator.
  rewrite lines_unbroken by by apply join_plain_unbroken.
  rewrite fmap_cons. f_equal. apply IH.
Qed.

End CsvFacts.

Section ReaderFacts.
Import PyStr Csv.
Implicit Types (s t f : string) (c : ascii) (row acc : list string) (p : parser).

Lemma bind_Some {A B} (x : A) (k : A → option B) : Some x ≫= k = k x.
Proof. done. Qed.

Lemma feed_app p s t : feed p (s +:+ t) = feed p s ≫= λ p', feed p' t.
Proof.
  revert p. induction s as [|c s IH]; intros p; [done|].
  rewrite append_cons. simpl.
  destruct (parse_process_char p (Some c)) as [p'|]; [apply IH|done].
Qed.

Lemma feed_in_field p s :
  st p = IN_FIELD → all plain_char s →
  feed p s
  = Some {| st := IN_FIELD; field := field p +:+ s; fields := fields p |}.
Proof.
  revert p. induction s as [|c s IH]; intros p Hst Hs.
  - rewrite append_nil_r. by destruct p; simplify_eq/=.
  - simpl in Hs. apply andb_True in Hs as [Hc Hs]. simpl.
    unfold parse_process_char. rewrite Hst.
    rewrite (plain_char_not_newline c Hc).
    rewrite decide_False by by apply plain_char_not_delimiter.
    simpl. rewrite IH by done. simpl. by rewrite append_assoc.
Qed.

Lemma feed_plain_field p f :
  at_start p → plain f →
  feed p f = Some {| st := IN_FIELD; field := f; fields := fields p |}.
Proof.
  intros [Hst Hfield] [Hne Hf]. destruct f as [|c f]; [done|].
  simpl in Hf. apply andb_True in Hf as [Hc Hf]. simpl.
  assert (parse_process_char p (Some c)
          = Some {| st := IN_FIELD; field := String c ""; fields := fields p |})
    as ->.
  { unfold parse_process_char, start_field.
    destruct Hst as [-> | ->];
      rewrite (plain_char_not_newline c Hc);
      rewrite decide_False by (by apply plain_char_not_quote);
      rewrite decide_False by (by apply plain_char_not_delimiter);
      unfold goto, parse_add_char; simpl; by rewrite Hfield. }
  simpl. by rewrite feed_in_field.
Qed.

Lemma feed_delimiter f acc s :
  feed {| st := IN_FIELD; field := f; fields := acc |} (String delimiter s)
  = feed {| st := START_FIELD; field := ""; fields := acc ++ [f] |} s.
Proof. done. Qed.

Lemma feed_row f row : ∀ p,
  Forall plain (f :: row) → at_start p →
  feed p (join (String delimiter "") (f :: row) +:+ String LF "")
  = Some {| st := EAT_CRNL; field := ""; fields := fields p ++ f :: row |}.
Proof.
  revert f. induction row as [|g row IH]; intros f p Hrow Hp.
  - apply Forall_cons in Hrow as [Hf _].
    cbn [join]. rewrite feed_app, (feed_plain_field p f) by done. done.
  - apply Forall_cons in Hrow as [Hf Hrow].
    change (join (String delimiter "") (f :: g :: row))
      with (f +:+ String delimiter "" +:+ join (String delimiter "") (g :: row)).
    rewrite !append_assoc, feed_app, (feed_plain_field p f) by done.
    rewrite bind_Some, append_cons, append_nil_l, feed_delimiter.
    rewrite IH; [|done|by split; [right|]].
    cbn [fields]. by rewrite <- app_assoc.
Qed.

Lemma reader_from_row row ls :
  Forall plain row →
  reader_from parse_reset
    ((join (String delimiter "") row +:+ String LF "") :: ls)
  = (row ::.) <$> reader_from parse_reset ls.
Proof.
  intros Hrow. destruct row as [|f row]; [done|].
  cbn [reader_from]. rewrite feed_row; [|done|by split; [left|]].
  done.
Qed.

Lemma reader_rows (rows : list (list string)) :
  Forall (Forall plain) rows →
  reader ((λ row, join (String delimiter "") row +:+ String LF "") <$> rows)
  = Some rows.
Proof.
  unfold reader. induction 1 as [|row rows Hrow Hrows IH]; [done|].
  rewrite fmap_cons, reader_from_row, IH by done. done.
Qed.

End ReaderFacts.

Section PreviewClaims.
Context `{Builtins}.

Lemma preview_loop_acc rows acc :
  preview_loop rows acc = acc ++ omap (mapM py_float) rows.
Proof.
  revert acc. induction rows as [|row rows IH]; intros acc.
  - by rewrite app_nil_r.
  - simpl. destruct (mapM py_float row) as [floats|]; rewrite IH; [|done].
    by rewrite <- app_assoc.
Qed.

Lemma preview_loop_omap rows :
  preview_loop rows [] = omap (mapM py_float) rows.
Proof. apply preview_loop_acc. Qed.

Lemma survives_plain (data : list (list pyfloat)) :
  Forall (Forall survives) data →
  Forall (Forall Csv.plain) ((λ row : list pyfloat, float_str <$> row) <$> data).
Proof.
  intros Hdata. apply Forall_fmap. eapply Forall_impl; [done|].
  intros row Hrow. simpl.
  apply Forall_fmap. eapply Forall_impl; [done|]. by intros x [? _].
Qed.

Lemma survives_parse (data : list (list pyfloat)) :
  Forall (Forall survives) data →
  omap (mapM py_float) ((λ row : list pyfloat, float_str <$> row) <$> data)
  = data.
Proof.
  induction 1 as [|row data Hrow Hdata IH]; [done|].
  rewrite fmap_cons. simpl. rewrite mapM_fmap_Forall_Some.
  - simpl. f_equal. exact IH.
  - eapply Forall_impl; [done|]. by intros x [_ ?].
Qed.

Lemma load_preview_data_csv_text (data : list (list pyfloat)) :
  Forall (Forall survives) data →
  load_preview_data (csv_text data) = Some data.
Proof.
  intros Hdata. unfold load_preview_data, csv_text.
  rewrite lines_of_rows, reader_rows by by apply survives_plain.
  simpl. by rewrite preview_loop_omap, survives_parse.
Qed.

(** C6.  A non-empty capture saved by [save_data_to_csv] and loaded by
    the preview comes back as the same sequence of float vectors,
    provided its floats survive printing and parsing (the writer prints
    each as a plain field and [float] reads that text back as the same
    value). *)
Theorem saved_capture_previews_back (now : datetime)
    (data : list (list pyfloat)) (fs : disk) (a : app)
    (dir : string) (files : gmap string string) :
  data ≠ [] →
  current_label_dir a = Some dir → dir ≠ "" → fs !! dir = Some files →
  Forall (Forall survives) data →
  ∃ a' fs' path content,
    save_data_to_csv now NoFault data fs a = (a', fs', Some path)
    ∧ fs' !! dir ≫= (λ files', files' !! sample_filename dir now)
      = Some content
    ∧ load_preview_data content = Some data.
Proof.
  intros Hdata Hdir Hne Hfs Hfloats. unfold save_data_to_csv.
  rewrite Hdir. simpl. rewrite Hfs.
  rewrite !bool_decide_eq_false_2 by done. simpl.
  eexists _, _, _, (csv_text data). split; [done|]. split.
  - rewrite lookup_insert_eq. simpl. by rewrite lookup_insert_eq.
  - by apply load_preview_data_csv_text.
Qed.

(** C10.  In the preview, a row with a field that [float] rejects is
    skipped without stopping the loop; the previewed data are the rows
    all of whose fields parse, in file order, each field as its float;
    and the loader produces them whenever the reader yields the rows. *)
Theorem preview_skips_malformed_rows (rows : list (list string)) :
  (∀ pre row post,
     Exists (λ x, py_float x = None) row →
     preview_loop (pre ++ row :: post) [] = preview_loop (pre ++ post) [])
  ∧ Forall2 (Forall2 (λ x v, py_float x = Some v))
            (filter (λ row, Forall (λ x, is_Some (py_float x)) row) rows)
            (preview_loop rows [])
  ∧ (∀ content,
       Csv.reader (Csv.lines (Csv.universal_newlines content)) = Some rows →
       load_preview_data content = Some (preview_loop rows [])).
Proof.
  split_and!.
  - intros pre row post Hbad%mapM_None.
    rewrite !preview_loop_omap, !omap_app. simpl. by rewrite Hbad.
  - rewrite preview_loop_omap.
    induction rows as [|row rows' IH]; [constructor|].
    simpl. rewrite filter_cons.
    destruct (mapM py_float row) as [floats|] eqn:Hrow.
    + rewrite decide_True.
      * constructor; [by apply mapM_Some|done].
      * apply (mapM_is_Some_1 py_float). by rewrite Hrow.
    + rewrite decide_False; [done|].
      intros Hall. apply (mapM_is_Some_2 py_float) in Hall.
      rewrite Hrow in Hall. by destruct Hall.
  - intros content Hrows. unfold load_preview_data. by rewrite Hrows.
Qed.

End PreviewClaims.

(** ** The properties on concrete runs *)

Section Runs.
Import Scenario.
#[local] Existing Instance Fixture.builtins.

Lemma read_serial_data_window_witness :
  ∃ c, read_serial_data port_name steady_device = Returns c
       ∧ returned c = (records before_stop).*2
       ∧ port c = Closed
       ∧ unread c = after_stop.
Proof.
  apply (proj2 (proj2 (read_serial_data_window (H := Fixture.builtins)
                         port_name steady_device))
           before_stop stop_line after_stop
           2600%Z stop_row 100%Z).
  - done.
  - done.
  - done.
  - repeat constructor.
  - by vm_compute.
  - vm_compute. repeat constructor.
  - by vm_compute.
  - by vm_compute.
Defined.

Lemma malformed_line_discarded_witness :
  DATA_COLUMNS + 1 = 7
  ∧ loop_body initial (Line "100,1.0,2.0") = Continue initial
  ∧ records (Line "100,1.0,2.0" :: after_stop) = records after_stop
  ∧ read_loop initial (Line "100,1.0,2.0" :: after_stop)
    = read_loop initial after_stop.
Proof.
  apply (malformed_line_discarded (H := Fixture.builtins)
           initial "100,1.0,2.0" after_stop).
  left. by vm_compute.
Defined.

Lemma read_error_discards_capture_witness :
  read_loop initial [Line "100,1.0,2.0,3.0,4.0,5.0,6.0"]
  = Waiting after_first_read
  ∧ ∃ c, read_serial_data port_name unplugged_device = Returns c
         ∧ returned c = []
         ∧ status c = "Error: " +:+ "device disconnected".
Proof.
  split; [reflexivity|].
  apply (proj2 (read_error_discards_capture (H := Fixture.builtins)
                  port_name unplugged_device)
           [Line "100,1.0,2.0,3.0,4.0,5.0,6.0"] "device disconnected" []
           after_first_read).
  - done.
  - done.
  - done.
  - reflexivity.
Defined.

(** C2 (the code departs from the claim).  A read that raises takes
    [read_serial_data] through its [except] branch, which returns without
    closing the port: only the normal exit reaches [ser.close()].  Here
    the second read raises and the handle is left open. *)
Theorem read_error_leaves_port_open :
  read_serial_data port_name unplugged_device
  = Returns {| returned := []; port := Opened;
               status := "Error: device disconnected"; unread := [] |}.
Proof. reflexivity. Qed.

Lemma sanitize_idempotent_empty_rejected_witness :
  sanitize " !?" = ""
  ∧ add_new_label None " !?" fresh_disk fresh
    = (set_status "Error: Label name invalid." fresh, fresh_disk).
Proof.
  split; [by vm_compute|].
  apply (proj2 (sanitize_idempotent_empty_rejected (H := Fixture.builtins))).
  by vm_compute.
Defined.

Lemma save_data_to_csv_contract_witness :
  ∃ a', save_data_to_csv clock NoFault two_rows fresh_disk fresh
        = (a',
           <[ "walk" := <[ sample_filename "walk" clock := csv_text two_rows ]>
                          ∅ ]> fresh_disk,
           Some (sample_filepath "walk" clock)).
Proof.
  apply (proj1 (proj2 (save_data_to_csv_contract (H := Fixture.builtins)
                         clock NoFault two_rows fresh_disk fresh))); done.
Defined.

Lemma failed_save_and_failed_delete_witness :
  ∃ a' fs',
    save_data_to_csv clock (WriteFails 1 "No space left on device")
      two_rows fresh_disk fresh = (a', fs', None)
    ∧ is_Some (fs' !! "walk"
               ≫= (λ files', files' !! sample_filename "walk" clock)).
Proof.
  apply (proj1 (proj2 (failed_save_and_failed_delete (H := Fixture.builtins)
                         clock two_rows fresh_disk fresh))
           1 "No space left on device" "walk" ∅); done.
Defined.

(** C3 (the claim fails here).  The label directory is empty; the write
    raises once the first row is written; [save_data_to_csv] returns
    [None], and the directory now holds the sample file. *)
Lemma failed_write_leaves_file :
  fresh_disk !! "walk" = Some ∅
  ∧ (save_data_to_csv clock (WriteFails 1 "No space left on device")
       two_rows fresh_disk fresh).2 = None
  ∧ (save_data_to_csv clock (WriteFails 1 "No space left on device")
       two_rows fresh_disk fresh).1.2
    !! "walk" ≫= (λ files, files !! "walk_20240307_090542.csv")
    = Some (csv_text (take 1 two_rows)).
Proof. by vm_compute. Qed.

Lemma delete_moves_selection_witness :
  ∃ a' fs',
    delete_selected_sample None walk_disk (browsing 2) = (a', fs')
    ∧ fs' = <[ "walk" := delete "walk_20240307_090541.csv" walk_files ]>
              walk_disk
    ∧ samples_listbox a' = delete 2 (samples_listbox (browsing 2))
    ∧ (2 = length (samples_listbox (browsing 2)) - 1 →
       curselection a' = Some (2 - 1)
       ∧ 2 - 1 < length (samples_listbox a')
       ∧ samples_listbox a' !! (2 - 1)
         = samples_listbox (browsing 2) !! (2 - 1))
    ∧ (2 < length (samples_listbox (browsing 2)) - 1 →
       curselection a' = Some 2
       ∧ samples_listbox a' !! 2 = samples_listbox (browsing 2) !! 3).
Proof.
  apply (delete_moves_selection walk_disk (browsing 2) "walk" walk_files 2
           "walk_20240307_090541.csv"); try done.
  - vm_compute. lia.
Defined.

Lemma saved_capture_previews_back_witness :
  ∃ a' fs' path content,
    save_data_to_csv clock NoFault two_rows fresh_disk fresh
    = (a', fs', Some path)
    ∧ fs' !! "walk" ≫= (λ files', files' !! sample_filename "walk" clock)
      = Some content
    ∧ load_preview_data content = Some two_rows.
Proof.
  apply (saved_capture_previews_back (H := Fixture.builtins)
           clock two_rows fresh_disk fresh "walk" ∅); try done.
  repeat constructor; by vm_compute.
Defined.

Lemma preview_skips_malformed_rows_witness :
  preview_loop ([["1.0"; "2.0"]] ++ ["3.0"; "x"] :: [["5.0"; "6.0"]]) []
  = preview_loop ([["1.0"; "2.0"]] ++ [["5.0"; "6.0"]]) [].
Proof.
  apply (proj1 (preview_skips_malformed_rows (H := Fixture.builtins) [])
           [["1.0"; "2.0"]] ["3.0"; "x"] [["5.0"; "6.0"]]).
  apply Exists_cons_tl, Exists_cons_hd. by vm_compute.
Defined.

(** The scenarios of the specification. *)

Example sanitize_walk_fast : sanitize "Walk Fast!" = "WalkFast".
Proof. reflexivity. Qed.

Example create_walk_fast_twice :
  (add_new_label None "Walk Fast!" fresh_disk fresh).2
  = <[ "WalkFast" := ∅ ]> fresh_disk
  ∧ (add_new_label None "Walk Fast!" (<[ "WalkFast" := ∅ ]> fresh_disk) fresh).2
    = <[ "WalkFast" := ∅ ]> fresh_disk
  ∧ status_var
      (add_new_label None "Walk Fast!" (<[ "WalkFast" := ∅ ]> fresh_disk) fresh).1
    = "Error creating label folder: [Errno 17] File exists: 'samples/WalkFast'".
Proof. split_and!; reflexivity. Qed.

Example capture_of_steady_device :
  read_serial_data port_name steady_device
  = Returns {| returned := two_rows; port := Closed;
               status := "Recording finished. Collected 2 samples.";
               unread := after_stop |}.
Proof. reflexivity. Qed.

End Runs.

(** * Further properties *)

(** ** The capture reader *)

Section CaptureMore.
Context `{Builtins}.

Implicit Types (st : loop_state) (reads pre rest : list read_event).

Lemma parse_line_length raw t floats :
  parse_line raw = Some (t, floats) → length floats = DATA_COLUMNS.
Proof.
  unfold parse_line. intros Hp.
  destruct (decide (PyStr.strip isspace raw = "")); [done|].
  destruct (decide (_ ≠ _)) as [|Hlen%dec_stable] in Hp; [done|].
  destruct (py_int _); [|done]. simpl in Hp.
  destruct (mapM py_float _) as [fs|] eqn:Hfs; [|done].
  simpl in Hp. injection Hp as _ <-.
  apply length_mapM in Hfs. rewrite <- Hfs, length_tl, Hlen. done.
Qed.

Lemma records_lengths reads :
  Forall (λ v, length v = DATA_COLUMNS) (records reads).*2.
Proof.
  induction reads as [|[raw|msg] reads IH]; [constructor| |done].
  rewrite records_cons_line.
  destruct (parse_line raw) as [[t floats]|] eqn:Hp; [|done].
  constructor; [by eapply parse_line_length|done].
Qed.

(** The two ways in which [read_serial_data] returns. *)
Lemma read_serial_data_returns wio dev c :
  read_serial_data wio dev = Returns c →
  (returned c = [] ∧ port c ≠ Closed)
  ∨ (∃ pre, returned c = (records pre).*2 ∧ records pre ≠ []
            ∧ port c = Closed).
Proof.
  intros Hret. unfold read_serial_data in Hret.
  destruct (truthy wio); simpl in Hret; [|by simplify_eq; left].
  destruct (open_error dev); [by simplify_eq; left|].
  destruct (read_loop initial (incoming dev)) as [st' rest|?|?] eqn:Hrun;
    [|by simplify_eq; left|done].
  injection Hret as <-. simpl. right.
  apply read_loop_broke in Hrun
    as (pre & stop & t & fs & _ & _ & _ & _ & Hd & _ & Hge).
  exists pre. split_and!; [done| |done].
  intros Hnil. unfold zero_point in Hge. rewrite Hnil in Hge. simpl in Hge.
  unfold duration_ms in Hge. lia.
Qed.

Lemma returned_six_floats wio dev c :
  read_serial_data wio dev = Returns c →
  Forall (λ v, length v = DATA_COLUMNS) (returned c).
Proof.
  intros [[-> _]|(pre & -> & _)]%read_serial_data_returns; [constructor|].
  apply records_lengths.
Qed.

Lemma returned_empty_iff wio dev c :
  read_serial_data wio dev = Returns c →
  (returned c = [] ↔ port c ≠ Closed).
Proof.
  intros [[-> Hport]|(pre & -> & Hne & ->)]%read_serial_data_returns; [done|].
  split; [|done]. intros Hnil. destruct Hne.
  by destruct (records pre).
Qed.

(** X1.  Every vector of a capture that [read_serial_data] returns has
    [DATA_COLUMNS] (six) floats. *)
Theorem capture_vectors_have_six_floats (wio : option string) (dev : device)
    (c : capture) :
  read_serial_data wio dev = Returns c →
  DATA_COLUMNS = 6 ∧ Forall (λ v, length v = DATA_COLUMNS) (returned c).
Proof.
  intros Hret. split; [done|].
  apply read_serial_data_returns in Hret as [[-> _]|(pre & -> & _)].
  - constructor.
  - induction pre as [|[raw|msg] pre IH]; [constructor| |done].
    rewrite records_cons_line.
    destruct (parse_line raw) as [[t floats]|] eqn:Hp; [|done].
    constructor; [by eapply parse_line_length|done].
Qed.

(** X2.  [read_serial_data] returns the empty list exactly when it did
    not finish a capture: a call that leaves its loop through [break], the
    only one that closes the port, returns at least one vector. *)
Theorem empty_capture_iff_not_finished (wio : option string) (dev : device)
    (c : capture) :
  read_serial_data wio dev = Returns c →
  (returned c = [] ↔ port c ≠ Closed).
Proof.
  intros Hret.
  apply read_serial_data_returns in Hret
    as [[-> Hport]|(pre & -> & Hne & ->)].
  - done.
  - split; [|done]. intros Hnil. destruct Hne.
    by apply fmap_nil_inv in Hnil.
Qed.

(** The state of a loop that has read [reads] without leaving. *)
Lemma read_loop_waits st reads :
  Forall is_line reads →
  (∀ t0, head (from_option (λ t, [t]) [] (start_ts st) ++ (records reads).*1)
         = Some t0 →
         Forall (λ r, (r.1 - t0 < duration_ms)%Z) (records reads)) →
  read_loop st reads
  = Waiting {| start_ts :=
                 head (from_option (λ t, [t]) [] (start_ts st)
                       ++ (records reads).*1);
               data := data st ++ (records reads).*2 |}.
Proof.
  revert st. induction reads as [|ev reads IH]; intros st Hl Hin.
  - simpl. rewrite !app_nil_r. destruct st as [[t|] d]; done.
  - apply Forall_cons in Hl as [Hev Hl]. destruct ev as [raw|]; [|done].
    rewrite read_loop_cons. rewrite records_cons_line in *.
    destruct (parse_line raw) as [[t1 fs1]|] eqn:Hp.
    + rewrite (loop_body_record _ _ _ _ Hp).
      assert (head (from_option (λ t, [t]) [] (start_ts st)
                    ++ ((t1, fs1) :: records reads).*1)
              = Some (default t1 (start_ts st))) as Hhd
        by (by destruct (start_ts st)).
      rewrite Hhd in *. specialize (Hin _ eq_refl).
      apply Forall_cons in Hin as [Hfirst Hin]. simpl in Hfirst.
      rewrite decide_False by lia. rewrite IH; [|done|].
      * simpl. by rewrite <- app_assoc.
      * simpl. by intros ? [= <-].
    + rewrite (loop_body_malformed _ _ Hp). by apply IH.
Qed.

(** X3.  While no read raises and every record read so far is less than
    [duration_ms] past the first one, [read_serial_data] has not returned:
    it is still in its loop, holding all those records.  In particular a
    device that stays silent, or sends only lines that do not parse,
    keeps the call waiting for ever. *)
Theorem capture_waits_for_stop_record (wio : option string) (dev : device) :
  truthy wio → open_error dev = None →
  Forall is_line (incoming dev) →
  (∀ t0, head (records (incoming dev)).*1 = Some t0 →
         Forall (λ r, (r.1 - t0 < duration_ms)%Z) (records (incoming dev))) →
  read_serial_data wio dev
  = Blocked {| start_ts := head (records (incoming dev)).*1;
               data := (records (incoming dev)).*2 |}.
Proof.
  intros Hwio Hopen Hl Hin. unfold read_serial_data.
  destruct (truthy wio); [simpl|done]. rewrite Hopen.
  by rewrite (read_loop_waits initial).
Qed.

End CaptureMore.

(** ** Labels *)

Section LabelsMore.

Lemma sort_asc_sorted l : StronglySorted String.le (sort_asc l).
Proof. apply StronglySorted_merge_sort; apply _. Qed.

Lemma elem_of_sort_asc x l : x ∈ sort_asc l ↔ x ∈ l.
Proof. unfold sort_asc. by rewrite merge_sort_Permutation. Qed.

Lemma elem_of_listdir {V} (d : gmap string V) name :
  name ∈ listdir d ↔ is_Some (d !! name).
Proof. unfold listdir. by rewrite elem_of_elements, elem_of_dom. Qed.

Lemma load_labels_fields fs a :
  label_dirs (load_labels fs a) = sort_asc (listdir fs)
  ∧ label_options (load_labels fs a)
    = sort_asc ((λ dirname,
                   label_option dirname
                     (count_samples (default ∅ (fs !! dirname))))
                <$> listdir fs).
Proof. unfold load_labels. by destruct (decide _). Qed.

(** X4.  [load_labels] lists the label directories in ascending order,
    each once, and the drop-down options in ascending order, one for each
    directory with the number of its sample files; it disables the record
    button when there is no label and otherwise leaves it as it was. *)
Theorem load_labels_lists_directories (fs : disk) (a : app) :
  StronglySorted String.le (label_dirs (load_labels fs a))
  ∧ NoDup (label_dirs (load_labels fs a))
  ∧ (∀ d, d ∈ label_dirs (load_labels fs a) ↔ is_Some (fs !! d))
  ∧ StronglySorted String.le (label_options (load_labels fs a))
  ∧ (∀ o, o ∈ label_options (load_labels fs a) ↔
          ∃ d files, fs !! d = Some files
                     ∧ o = label_option d (count_samples files))
  ∧ length (label_options (load_labels fs a))
    = length (label_dirs (load_labels fs a))
  ∧ record_button (load_labels fs a)
    = record_button a && negb (bool_decide (fs = ∅)).
Proof.
  destruct (load_labels_fields fs a) as [Hdirs Hopts].
  rewrite Hdirs, Hopts. split_and!.
  - apply sort_asc_sorted.
  - unfold sort_asc, listdir. rewrite merge_sort_Permutation.
    apply NoDup_elements.
  - intros d. by rewrite elem_of_sort_asc, elem_of_listdir.
  - apply sort_asc_sorted.
  - intros o. rewrite elem_of_sort_asc, list_elem_of_fmap. split.
    + intros (d & -> & [files Hd]%elem_of_listdir).
      exists d, files. by rewrite Hd.
    + intros (d & files & Hd & ->). exists d. rewrite Hd. split; [done|].
      apply elem_of_listdir. by eexists.
  - unfold sort_asc. by rewrite !merge_sort_Permutation, length_fmap.
  - unfold load_labels.
    destruct (decide (sort_asc _ = [])) as [Hnil|Hne]; simpl.
    + assert (fs = ∅) as ->; [|by rewrite bool_decide_eq_true_2, andb_false_r].
      apply map_empty. intros d. apply eq_None_not_Some.
      rewrite <- elem_of_listdir. intros Hd.
      apply (list_elem_of_fmap_2
               (λ dirname, label_option dirname
                             (count_samples (default ∅ (fs !! dirname)))))
        in Hd.
      apply elem_of_sort_asc in Hd. rewrite Hnil in Hd. by apply elem_of_nil in Hd.
    + rewrite bool_decide_eq_false_2, andb_true_r; [done|].
      intros ->. apply Hne. done.
Qed.

Lemma count_samples_listed (files : gmap string string) :
  count_samples files = length (list_samples files).
Proof.
  unfold count_samples, list_samples, sort_desc.
  by rewrite merge_sort_Permutation.
Qed.

(** X5.  The number of samples a drop-down option shows for a label is
    the number of items the list box shows for it. *)
Theorem label_count_is_listbox_size (fs : disk) (a : app) (dir : string)
    (files : gmap string string) :
  fs !! dir = Some files →
  label_option dir (length (list_samples files))
  ∈ label_options (load_labels fs a).
Proof.
  intros Hdir. destruct (load_labels_fields fs a) as [_ ->].
  apply elem_of_sort_asc, list_elem_of_fmap. exists dir.
  rewrite Hdir. simpl. rewrite count_samples_listed. split; [done|].
  apply elem_of_listdir. by eexists.
Qed.

End LabelsMore.

(** ** The list box *)

Section SamplesMore.

(** X6.  [load_sample_list] fills the list box with the names ending in
    [.csv] of the current label's directory, each once, in descending
    order, and clears the selection; without a label, or with a label
    whose directory is gone, the list box is left empty, the latter with
    an error status. *)
Theorem load_sample_list_lists_csv_files (fs : disk) (a : app) :
  (∀ dir files,
     current_label_dir a = Some dir → dir ≠ "" → fs !! dir = Some files →
     StronglySorted (flip String.le) (samples_listbox (load_sample_list fs a))
     ∧ NoDup (samples_listbox (load_sample_list fs a))
     ∧ (∀ name, name ∈ samples_listbox (load_sample_list fs a)
                ↔ is_csv name ∧ is_Some (files !! name))
     ∧ status_var (load_sample_list fs a) = status_var a)
  ∧ (∀ dir,
       current_label_dir a = Some dir → dir ≠ "" → fs !! dir = None →
       samples_listbox (load_sample_list fs a) = []
       ∧ status_var (load_sample_list fs a)
         = "Error: Label folder '" +:+ dir +:+ "' not found.")
  ∧ (truthy (current_label_dir a) = false →
     samples_listbox (load_sample_list fs a) = []
     ∧ status_var (load_sample_list fs a) = status_var a)
  ∧ curselection (load_sample_list fs a) = None.
Proof.
  unfold load_sample_list. split_and!.
  - intros dir files Hdir Hne Hfs. simpl. rewrite Hdir. simpl.
    rewrite bool_decide_eq_false_2 by done. simpl. rewrite Hfs. simpl.
    split_and!; [apply list_samples_sorted|apply list_samples_NoDup| |done].
    intros name. apply elem_of_list_samples.
  - intros dir Hdir Hne Hfs. simpl. rewrite Hdir. simpl.
    rewrite bool_decide_eq_false_2 by done. simpl. by rewrite Hfs.
  - intros Hno. simpl. by rewrite Hno.
  - simpl. destruct (truthy _); [|done]. by destruct (fs !! _).
Qed.

Lemma split_nonempty sep s : PyStr.split sep s ≠ [].
Proof.
  destruct s as [|c s]; [done|]. simpl.
  destruct (decide (c = sep)); [done|]. by destruct (PyStr.split sep s).
Qed.

Lemma head_split_cons sep c s :
  c ≠ sep →
  head (PyStr.split sep (String c s)) = String c <$> head (PyStr.split sep s).
Proof.
  intros Hc. simpl. rewrite decide_False by done.
  pose proof (split_nonempty sep s). by destruct (PyStr.split sep s).
Qed.

(** What precedes the first separator does not depend on what follows
    it. *)
Lemma head_split_app sep s t :
  head (PyStr.split sep (s +:+ String sep t)) = head (PyStr.split sep s).
Proof.
  induction s as [|c s IH].
  - rewrite append_nil_l. simpl. by rewrite decide_True.
  - rewrite append_cons. destruct (decide (c = sep)) as [->|Hc].
    + simpl. by rewrite !decide_True.
    + by rewrite !head_split_cons, IH.
Qed.

Lemma head_split_plain sep s :
  PyStr.all (λ c, negb (bool_decide (c = sep))) s →
  head (PyStr.split sep s) = Some s.
Proof.
  induction s as [|c s IH]; [done|]. simpl PyStr.all.
  intros [Hc Hs]%andb_True. apply negb_True in Hc.
  rewrite bool_decide_spec in Hc. rewrite head_split_cons, IH; done.
Qed.

Lemma label_selected_fields fs a :
  current_label_dir (label_selected fs a)
  = head (PyStr.split " " (current_label a))
  ∧ current_label (label_selected fs a) = current_label a
  ∧ wio_port_name (label_selected fs a) = wio_port_name a
  ∧ curselection (label_selected fs a) = None
  ∧ record_button (label_selected fs a) = truthy (wio_port_name a)
  ∧ label_dirs (label_selected fs a) = label_dirs a
  ∧ label_options (label_selected fs a) = label_options a.
Proof.
  unfold label_selected, load_sample_list. simpl.
  destruct (truthy (head _)); [|done]. by destruct (fs !! _).
Qed.

(** X7.  [label_selected] takes the label directory from the drop-down
    text: for the option of a directory it is what precedes the first
    space of the directory's name, so the name itself when it has no
    space; the list box is then reloaded from that directory, nothing is
    selected, and the record button is enabled exactly when a port was
    detected. *)
Theorem label_selected_follows_option (fs : disk) (a : app) (dir : string)
    (count : nat) :
  current_label a = label_option dir count →
  current_label_dir (label_selected fs a) = head (PyStr.split " " dir)
  ∧ curselection (label_selected fs a) = None
  ∧ record_button (label_selected fs a) = truthy (wio_port_name a)
  ∧ (∀ files,
       dir ≠ "" →
       PyStr.all (λ c, negb (bool_decide (c = " "%char))) dir →
       fs !! dir = Some files →
       current_label_dir (label_selected fs a) = Some dir
       ∧ samples_listbox (label_selected fs a) = list_samples files).
Proof.
  intros Hcur.
  assert (head (PyStr.split " " (current_label a)) = head (PyStr.split " " dir))
    as Hhead.
  { rewrite Hcur. unfold label_option. apply (head_split_app " " dir). }
  destruct (label_selected_fields fs a) as (Hd & _ & _ & Hsel & Hbtn & _).
  rewrite Hd, Hhead. split_and!; [done..|].
  intros files Hne Hplain Hfs.
  pose proof (head_split_plain " " dir Hplain) as Hdir.
  rewrite Hdir in Hhead. split; [done|].
  by destruct (label_selected_listbox fs a dir files) as [Hbox _].
Qed.

End SamplesMore.

(** ** Creating labels *)

Section CreateMore.
Context `{Builtins}.

(** The characters [sanitize] keeps. *)
Lemma sanitize_allowed s :
  PyStr.all (λ c, isalnum c || bool_decide (c = "_"%char)
                  || bool_decide (c = "-"%char)) (sanitize s).
Proof. unfold sanitize. apply all_strip, filter_all. Qed.

Lemma list_samples_empty : list_samples ∅ = [].
Proof.
  unfold list_samples, listdir. rewrite dom_empty_L, elements_empty. done.
Qed.

Lemma count_samples_empty : count_samples ∅ = 0.
Proof. by rewrite count_samples_listed, list_samples_empty. Qed.

(** X8.  [add_new_label] on a name whose sanitised form is not empty and
    not yet a directory creates that directory, empty, and nothing else;
    the name has only letters, digits, underscores and hyphens; the new
    label is listed and becomes the current one, with an empty list box
    and no selection, and the record button is enabled exactly when a
    port was detected. *)
Theorem add_new_label_creates_label (raw : string) (fs : disk) (a : app) :
  sanitize raw ≠ "" → fs !! sanitize raw = None →
  ∃ a',
    add_new_label None raw fs a = (a', <[sanitize raw := ∅]> fs)
    ∧ PyStr.all (λ c, isalnum c || bool_decide (c = "_"%char)
                      || bool_decide (c = "-"%char)) (sanitize raw)
    ∧ sanitize raw ∈ label_dirs a'
    ∧ current_label a' = label_option (sanitize raw) 0
    ∧ current_label_dir a' = Some (sanitize raw)
    ∧ samples_listbox a' = [] ∧ curselection a' = None
    ∧ record_button a' = truthy (wio_port_name a)
    ∧ status_var a' = "Created new label folder: " +:+ sanitize raw.
Proof.
  intros Hne Hnew. unfold add_new_label.
  rewrite decide_False by done. rewrite Hnew.
  set (name := sanitize raw) in *. set (fs' := <[name := ∅]> fs).
  set (a1 := set_status ("Created new label folder: " +:+ name) a).
  assert (name +:+ " (0 samples)" ∈ label_options (load_labels fs' a1)) as Hin.
  { destruct (load_labels_fields fs' a1) as [_ ->].
    apply elem_of_sort_asc, list_elem_of_fmap. exists name. split.
    - unfold fs'. rewrite lookup_insert_eq. simpl.
      by rewrite count_samples_empty.
    - apply elem_of_listdir. unfold fs'. rewrite lookup_insert_eq. by eexists. }
  rewrite decide_True by done. eexists. split; [done|].
  destruct (load_labels_fields fs' a1) as [Hdirs _].
  unfold load_sample_list. simpl.
  rewrite bool_decide_eq_false_2 by done. simpl.
  assert (fs' !! name = Some ∅) as ->
    by (unfold fs'; by rewrite lookup_insert_eq).
  simpl. rewrite list_samples_empty, Hdirs.
  split_and!; try done.
  - apply sanitize_allowed.
  - apply elem_of_sort_asc, elem_of_listdir. unfold fs'.
    rewrite lookup_insert_eq. by eexists.
  - unfold load_labels. by destruct (decide _).
  - unfold load_labels. by destruct (decide _).
Qed.

(** X9.  Once [add_new_label] has run on a name (with no failure of the
    operating system), the directory of its sanitised form exists, and
    every later [add_new_label] on that name is rejected: it reports that
    the folder exists and changes nothing on disk. *)
Theorem add_new_label_twice_rejected (raw : string) (fs : disk) (a : app) :
  sanitize raw ≠ "" →
  is_Some ((add_new_label None raw fs a).2 !! sanitize raw)
  ∧ ∀ fault fs1 a1,
      is_Some (fs1 !! sanitize raw) →
      add_new_label fault raw fs1 a1
      = (set_status
           ("Error creating label folder: "
            +:+ file_exists_error
                  (os_path_join BASE_FOLDER_NAME [sanitize raw])) a1,
         fs1).
Proof.
  intros Hne. split.
  - unfold add_new_label. rewrite decide_False by done.
    destruct (fs !! sanitize raw) eqn:Hfs; simpl; [by rewrite Hfs|].
    destruct (decide _); simpl; rewrite lookup_insert_eq; by eexists.
  - intros fault fs1 a1 [files Hfs]. unfold add_new_label.
    rewrite decide_False by done. by rewrite Hfs.
Qed.

(** X10.  [add_new_label] never removes a label directory nor touches the
    files of one: what was on disk before is there afterwards. *)
Theorem add_new_label_keeps_directories (fault : option string)
    (raw : string) (fs : disk) (a : app) (dir : string)
    (files : gmap string string) :
  fs !! dir = Some files →
  (add_new_label fault raw fs a).2 !! dir = Some files.
Proof.
  intros Hdir. unfold add_new_label.
  destruct (decide (sanitize raw = "")); [done|].
  destruct (fs !! sanitize raw) eqn:Hfs; [done|].
  destruct fault; [done|].
  assert (sanitize raw ≠ dir) by congruence.
  destruct (decide _); simpl; by rewrite lookup_insert_ne.
Qed.

End CreateMore.

(** ** Saving and deleting samples *)

Section FilesMore.
Context `{Builtins}.

Lemma file_at_insert fs dir files name content d f :
  fs !! dir = Some files →
  ¬ (d = dir ∧ f = name) →
  file_at (<[dir := <[name := content]> files]> fs) d f = file_at fs d f.
Proof.
  intros Hdir Hother. unfold file_at.
  destruct (decide (d = dir)) as [->|Hd].
  - rewrite lookup_insert_eq, Hdir. simpl.
    rewrite lookup_insert_ne; [done|]. intros <-. by apply Hother.
  - by rewrite lookup_insert_ne.
Qed.

Lemma file_at_insert_eq (fs : disk) dir files name content :
  file_at (<[dir := <[name := content]> files]> fs) dir name = Some content.
Proof. unfold file_at. rewrite lookup_insert_eq. simpl. apply lookup_insert_eq. Qed.

Lemma dom_insert_present (fs : disk) dir files files' :
  fs !! dir = Some files → dom (<[dir := files']> fs) = dom fs.
Proof.
  intros Hdir. rewrite dom_insert_L.
  apply subseteq_union_1_L, singleton_subseteq_l, elem_of_dom. by eexists.
Qed.

(** The cases of [save_data_to_csv] once the capture and the label are
    there. *)
Lemma save_data_to_csv_accepted now fault data fs a dir :
  data ≠ [] → current_label_dir a = Some dir → dir ≠ "" →
  save_data_to_csv now fault data fs a
  = match fs !! dir, fault with
    | None, _ =>
        (set_status ("Error saving CSV: "
                     +:+ file_not_found_error (sample_filepath dir now)) a,
         fs, None)
    | Some _, OpenFails msg =>
        (set_status ("Error saving CSV: " +:+ msg) a, fs, None)
    | Some files, WriteFails written msg =>
        (set_status ("Error saving CSV: " +:+ msg) a,
         <[dir := <[sample_filename dir now := csv_text (take written data)]>
                    files]> fs,
         None)
    | Some files, NoFault =>
        (set_status ("Successfully saved " +:+ pretty (length data)
                     +:+ " samples to " +:+ dir +:+ "/"
                     +:+ sample_filename dir now) a,
         <[dir := <[sample_filename dir now := csv_text data]> files]> fs,
         Some (sample_filepath dir now))
    end.
Proof.
  intros Hdata Hdir Hne. unfold save_data_to_csv. rewrite Hdir. simpl.
  by rewrite !bool_decide_eq_false_2.
Qed.

Lemma save_data_to_csv_rejected now fault data fs a :
  data = [] ∨ truthy (current_label_dir a) = false →
  save_data_to_csv now fault data fs a
  = (set_status "Error: No data or no label selected to save." a, fs, None).
Proof.
  intros Hrej. unfold save_data_to_csv. destruct Hrej as [-> | ->]; [done|].
  by rewrite orb_true_r.
Qed.

(** X11.  [save_data_to_csv] creates and removes no directory and, in
    every case, leaves every file other than the one it names as it
    was. *)
Theorem save_touches_one_file (now : datetime) (fault : write_fault)
    (data : list (list pyfloat)) (fs : disk) (a : app) (d f : string) :
  ¬ (current_label_dir a = Some d ∧ f = sample_filename d now) →
  dom (save_data_to_csv now fault data fs a).1.2 = dom fs
  ∧ file_at (save_data_to_csv now fault data fs a).1.2 d f = file_at fs d f.
Proof.
  intros Hother.
  destruct (decide (data = [])) as [Hdata|Hdata].
  { by rewrite save_data_to_csv_rejected by by left. }
  destruct (truthy (current_label_dir a)) eqn:Hlabel; cycle 1.
  { by rewrite save_data_to_csv_rejected by by right. }
  destruct (current_label_dir a) as [dir|] eqn:Hdir; [|done].
  assert (dir ≠ "") as Hne by (by intros ->).
  rewrite (save_data_to_csv_accepted _ _ _ _ _ dir) by done.
  destruct (fs !! dir) as [files|] eqn:Hfs; [|done].
  destruct fault; simpl; [|done|].
  - split; [by eapply dom_insert_present|].
    apply file_at_insert; [done|]. intros [-> ->]. by apply Hother.
  - split; [by eapply dom_insert_present|].
    apply file_at_insert; [done|]. intros [-> ->]. by apply Hother.
Qed.

(** X12.  Two captures saved to the same label within the same second
    share a file name: the second save overwrites the first, and the disk
    ends as if only the second capture had been saved. *)
Theorem save_same_second_overwrites (now : datetime)
    (data1 data2 : list (list pyfloat)) (fs : disk) (a : app)
    (dir : string) (files : gmap string string) :
  data1 ≠ [] → data2 ≠ [] →
  current_label_dir a = Some dir → dir ≠ "" → fs !! dir = Some files →
  ∃ a1 fs1 a2 fs2 path,
    save_data_to_csv now NoFault data1 fs a = (a1, fs1, Some path)
    ∧ save_data_to_csv now NoFault data2 fs1 a1 = (a2, fs2, Some path)
    ∧ file_at fs1 dir (sample_filename dir now) = Some (csv_text data1)
    ∧ file_at fs2 dir (sample_filename dir now) = Some (csv_text data2)
    ∧ fs2 = (save_data_to_csv now NoFault data2 fs a).1.2.
Proof.
  intros Hd1 Hd2 Hdir Hne Hfs.
  rewrite !(save_data_to_csv_accepted _ _ _ fs a dir) by done. rewrite Hfs.
  eexists _, _, _, _, _. split; [done|].
  rewrite (save_data_to_csv_accepted _ _ _ _ _ dir) by done.
  rewrite lookup_insert_eq. split; [done|].
  rewrite !file_at_insert_eq. split_and!; [done..|].
  simpl. by rewrite insert_insert_eq, insert_insert_eq.
Qed.

Lemma endswith_app suf s : PyStr.endswith suf (s +:+ suf) = true.
Proof.
  induction s as [|c s IH].
  - rewrite append_nil_l. destruct suf; simpl; [done|].
    by rewrite bool_decide_eq_true_2.
  - rewrite append_cons. simpl. by rewrite IH, orb_true_r.
Qed.

Lemma sample_filename_is_csv dir now : is_csv (sample_filename dir now).
Proof.
  unfold is_csv, sample_filename.
  rewrite <- !append_assoc. by rewrite endswith_app.
Qed.

(** The first item of the list box is the greatest name. *)
Lemma list_samples_head files name :
  is_csv name → is_Some (files !! name) →
  (∀ other, is_csv other → is_Some (files !! other) → String.le other name) →
  head (list_samples files) = Some name.
Proof.
  intros Hcsv Hin Hmax.
  pose proof (list_samples_sorted files) as Hsorted.
  assert (name ∈ list_samples files) as Hname
    by (by apply elem_of_list_samples).
  destruct (list_samples files) as [|x l] eqn:Hl; [by apply elem_of_nil in Hname|].
  simpl. f_equal.
  apply StronglySorted_cons in Hsorted as [Hx _].
  assert (x ∈ list_samples files) as Hxin by (rewrite Hl; left).
  apply elem_of_list_samples in Hxin as [Hxcsv Hxfile].
  apply elem_of_cons in Hname as [->|Hname]; [done|].
  apply (anti_symm String.le); [by apply Hmax|].
  rewrite Forall_forall in Hx. by apply (Hx name).
Qed.

(** X13.  After a capture is saved, its file is the first item of the
    reloaded list box whenever no sample file of the label has a greater
    name, as is the case when the clock has moved on since the samples
    were stored; a file with a greater name stays above it. *)
Theorem saved_sample_listed_first (now : datetime)
    (data : list (list pyfloat)) (fs : disk) (a : app)
    (dir : string) (files : gmap string string) :
  data ≠ [] →
  current_label_dir a = Some dir → dir ≠ "" → fs !! dir = Some files →
  ∃ a' fs' path,
    save_data_to_csv now NoFault data fs a = (a', fs', Some path)
    ∧ sample_filename dir now ∈ samples_listbox (load_sample_list fs' a')
    ∧ ((∀ other, is_csv other → is_Some (files !! other) →
                 String.le other (sample_filename dir now)) →
       head (samples_listbox (load_sample_list fs' a'))
       = Some (sample_filename dir now))
    ∧ (∀ other, is_csv other → is_Some (files !! other) →
                ¬ String.le other (sample_filename dir now) →
                head (samples_listbox (load_sample_list fs' a'))
                ≠ Some (sample_filename dir now)).
Proof.
  intros Hdata Hdir Hne Hfs.
  rewrite (save_data_to_csv_accepted _ _ _ fs a dir) by done. rewrite Hfs.
  eexists _, _, _. split; [done|].
  set (name := sample_filename dir now).
  set (files' := <[name := csv_text data]> files).
  assert (samples_listbox
            (load_sample_list (<[dir := files']> fs)
               (set_status ("Successfully saved " +:+ pretty (length data)
                            +:+ " samples to " +:+ dir +:+ "/" +:+ name) a))
          = list_samples files') as ->.
  { unfold load_sample_list. simpl. rewrite Hdir. simpl.
    rewrite bool_decide_eq_false_2 by done. simpl.
    by rewrite lookup_insert_eq. }
  assert (is_Some (files' !! name)) as Hin
    by (unfold files'; rewrite lookup_insert_eq; by eexists).
  pose proof (sample_filename_is_csv dir now) as Hcsv. fold name in Hcsv.
  split_and!.
  - by apply elem_of_list_samples.
  - intros Hmax. apply list_samples_head; [done..|].
    intros other Hocsv Hofile. destruct (decide (other = name)) as [->|Ho].
    + done.
    + apply Hmax; [done|]. unfold files' in Hofile.
      by rewrite lookup_insert_ne in Hofile.
  - intros other Hocsv Hofile Hgt Hhead.
    pose proof (list_samples_sorted files') as Hsorted.
    assert (other ∈ list_samples files') as Hoin.
    { apply elem_of_list_samples. split; [done|]. unfold files'.
      destruct (decide (name = other)) as [->|Ho]; [done|].
      by rewrite lookup_insert_ne. }
    destruct (list_samples files') as [|x l]; [done|].
    simpl in Hhead. injection Hhead as ->.
    apply StronglySorted_cons in Hsorted as [Hx _].
    apply elem_of_cons in Hoin as [->|Hoin]; [by apply Hgt|].
    rewrite Forall_forall in Hx. by apply Hgt, (Hx other).
Qed.

End FilesMore.

Section DeleteMore.

Lemma file_at_delete (fs : disk) dir files name d f :
  fs !! dir = Some files →
  ¬ (d = dir ∧ f = name) →
  file_at (<[dir := delete name files]> fs) d f = file_at fs d f.
Proof.
  intros Hdir Hother. unfold file_at.
  destruct (decide (d = dir)) as [->|Hd].
  - rewrite lookup_insert_eq, Hdir. simpl.
    rewrite lookup_delete_ne; [done|]. intros <-. by apply Hother.
  - by rewrite lookup_insert_ne.
Qed.

(** X14.  [delete_selected_sample] creates and removes no directory and
    leaves every file other than the selected one of the current label
    as it was. *)
Theorem delete_touches_one_file (fault : option string) (fs : disk)
    (a : app) (d f : string) :
  ¬ (current_label_dir a = Some d
     ∧ ∃ i, curselection a = Some i
            ∧ f = default "" (samples_listbox a !! i)) →
  dom (delete_selected_sample fault fs a).2 = dom fs
  ∧ file_at (delete_selected_sample fault fs a).2 d f = file_at fs d f.
Proof.
  intros Hother. unfold delete_selected_sample.
  destruct (curselection a) as [i|] eqn:Hsel; [|done].
  destruct (truthy (current_label_dir a)) eqn:Hlabel; [|done].
  destruct (current_label_dir a) as [dir|] eqn:Hdir; [|done]. simpl.
  destruct (fs !! dir) as [files|] eqn:Hfs; [|done].
  destruct (files !! _) eqn:Hfile; [|done].
  destruct fault; [done|]. simpl.
  split; [by eapply dom_insert_present|].
  apply file_at_delete; [done|]. intros [-> ->]. apply Hother. eauto.
Qed.

(** X15.  Deleting the only sample of the list box removes its file and
    leaves the list box empty with nothing selected. *)
Theorem delete_only_sample (fs : disk) (a : app) (dir : string)
    (files : gmap string string) (filename : string) :
  curselection a = Some 0 →
  current_label_dir a = Some dir → dir ≠ "" →
  head (PyStr.split " " (current_label a)) = Some dir →
  fs !! dir = Some files →
  samples_listbox a = list_samples files →
  samples_listbox a = [filename] →
  ∃ a' fs',
    delete_selected_sample None fs a = (a', fs')
    ∧ file_at fs' dir filename = None
    ∧ samples_listbox a' = []
    ∧ curselection a' = None
    ∧ status_var a' = "Successfully deleted: " +:+ filename.
Proof.
  intros Hsel Hdir Hne Hlabel Hfs Hsync Hbox.
  assert (list_samples files !! 0 = Some filename) as Hi
    by (by rewrite <- Hsync, Hbox).
  assert (is_Some (files !! filename)) as [content Hfile].
  { apply (elem_of_list_samples files filename).
    by eapply list_elem_of_lookup_2. }
  unfold delete_selected_sample.
  rewrite Hsel, Hdir, Hbox. simpl.
  rewrite bool_decide_eq_false_2 by done. simpl.
  rewrite Hfs, Hfile.
  set (fs' := <[dir:=delete filename files]> fs).
  destruct (load_labels_keeps fs' a) as [Hcur _].
  destruct (label_selected_listbox fs' (load_labels fs' a) dir
              (delete filename files)) as [Hlist Hnosel].
  { by rewrite Hcur. }
  { exact Hne. }
  { unfold fs'. by rewrite lookup_insert_eq. }
  rewrite (list_samples_delete _ _ _ Hi), <- Hsync, Hbox in Hlist.
  eexists _, fs'. split; [done|].
  change (file_at fs' dir filename = None
          ∧ samples_listbox (label_selected fs' (load_labels fs' a)) = []
          ∧ curselection (label_selected fs' (load_labels fs' a)) = None
          ∧ "Successfully deleted: " +:+ filename
            = "Successfully deleted: " +:+ filename).
  rewrite Hlist, Hnosel. split_and!; [|done..].
  unfold file_at, fs'. rewrite lookup_insert_eq. simpl.
  apply lookup_delete_eq.
Qed.

(** X16.  When the selected file is no longer on disk (the list box is
    stale), [delete_selected_sample] reports that the file was not found
    and changes nothing else: the disk is as it was and the list box
    still shows the item, selected. *)
Theorem delete_missing_file_reported (fault : option string) (fs : disk)
    (a : app) (dir : string) (i : nat) (filename : string) :
  curselection a = Some i →
  current_label_dir a = Some dir → dir ≠ "" →
  samples_listbox a !! i = Some filename →
  file_at fs dir filename = None →
  delete_selected_sample fault fs a
  = (set_status
       ("Error deleting file: "
        +:+ file_not_found_error
              (os_path_join BASE_FOLDER_NAME [dir; filename])) a,
     fs).
Proof.
  intros Hsel Hdir Hne Hi Hgone. unfold delete_selected_sample.
  rewrite Hsel, Hdir, Hi. simpl. rewrite bool_decide_eq_false_2 by done.
  simpl. unfold file_at in Hgone.
  destruct (fs !! dir) as [files|]; [|done]. simpl in Hgone.
  by rewrite Hgone.
Qed.

End DeleteMore.

(** ** Port detection *)

Section PortMore.

(** X17.  [auto_detect_wio_port] returns the device name of the first
    port, in enumeration order, whose vendor and product identifiers are
    10374 and 32813, and [None] exactly when no port has them. *)
Theorem auto_detect_first_match (comports : list ListPortInfo) :
  WIO_VID = 10374%Z ∧ WIO_PID = 32813%Z
  ∧ (∀ name,
       auto_detect_wio_port comports = Some name ↔
       ∃ pre port post,
         comports = pre ++ port :: post
         ∧ Forall (λ p, ¬ is_wio p) pre
         ∧ is_wio port ∧ device_name port = name)
  ∧ (auto_detect_wio_port comports = None ↔
     Forall (λ p, ¬ is_wio p) comports).
Proof.
  split; [done|]. split; [done|].
  induction comports as [|p ports [IHsome IHnone]].
  - split.
    + intros name. split; [done|].
      intros (pre & port & post & Heq & _). by destruct pre.
    + done.
  - simpl. destruct (decide (is_wio p)) as [Hp|Hp].
    + split.
      * intros name. split.
        -- intros [= <-]. by exists [], p, ports.
        -- intros (pre & port & post & Heq & Hpre & Hport & <-).
           destruct pre as [|q pre]; simplify_eq/=; [done|].
           by apply Forall_cons in Hpre as [? _].
      * split; [done|]. by intros [? _]%Forall_cons.
    + split.
      * intros name. rewrite IHsome. split.
        -- intros (pre & port & post & -> & Hpre & Hport & <-).
           exists (p :: pre), port, post. split_and!; [done| |done..].
           by constructor.
        -- intros (pre & port & post & Heq & Hpre & Hport & <-).
           destruct pre as [|q pre]; simplify_eq/=; [done|].
           apply Forall_cons in Hpre as [_ Hpre]. by exists pre, port, post.
      * rewrite IHnone. split; [by constructor|by intros [_ ?]%Forall_cons].
Qed.

End PortMore.

(** ** The label dialog *)

Section PromptMore.
Context `{Builtins}.

(** X18.  [prompt_new_label] changes the disk by at most one new, empty
    directory, named by the sanitised text; a text that is empty or white
    space only, or whose stripped form is already listed as a label,
    changes nothing at all, not even the status. *)
Theorem prompt_new_label_adds_at_most_one (fault : option string)
    (entry_text : string) (fs : disk) (a : app) :
  ((prompt_new_label fault entry_text fs a).2 = fs
   ∨ (sanitize (PyStr.strip isspace entry_text) ≠ ""
      ∧ fs !! sanitize (PyStr.strip isspace entry_text) = None
      ∧ (prompt_new_label fault entry_text fs a).2
        = <[sanitize (PyStr.strip isspace entry_text) := ∅]> fs))
  ∧ (PyStr.strip isspace entry_text = ""
     ∨ PyStr.strip isspace entry_text ∈ label_dirs a →
     prompt_new_label fault entry_text fs a = (a, fs)).
Proof.
  unfold prompt_new_label. split.
  - destruct (_ && _); [|by left]. unfold add_new_label.
    destruct (decide (sanitize _ = "")); [by left|].
    destruct (fs !! sanitize _) eqn:Hfs; [by left|].
    destruct fault; [by left|]. right.
    destruct (decide _); by simpl.
  - intros [-> | Hin]; [done|].
    rewrite (bool_decide_eq_false_2 (_ ∉ _)) by (by intros Hn).
    by rewrite andb_false_r.
Qed.

End PromptMore.

(** ** The plot *)

Section PlotMore.
Context `{Externals}.

Lemma plot_data_rectangular data a :
  data ≠ [] → rectangular data → 3 ≤ length (default [] (head data)) →
  plot_data data a
  = Drawn
      (if bool_decide (length data < SMOOTHING_WINDOW_LENGTH)
          && negb (PyStr.startswith "ERROR:" (status_var a))
       then set_status
              "Warning: Not enough samples for smoothing. Plotting raw data." a
       else a)
      {| title := "Smoothed Data Preview ("
                  +:+ default "None" (current_label_dir a) +:+ ")";
         curves := (λ i, if bool_decide (length data < SMOOTHING_WINDOW_LENGTH)
                         then column i data
                         else savgol_filter (column i data))
                   <$> [0; 1; 2] |}.
Proof.
  intros Hne Hrect Hcols. unfold plot_data.
  rewrite decide_False, decide_True, decide_False by (done || lia).
  by destruct (_ && _).
Qed.

(** X19.  Given rows of one length, at least three floats each,
    [plot_data] draws the first three columns of a capture with
    fewer than [SMOOTHING_WINDOW_LENGTH] (11) rows as they are, and sets
    the status to a warning unless the status begins with [ERROR:]; from
    11 rows on it draws the three columns filtered and leaves the status
    alone. *)
Theorem plot_data_smooths_from_eleven_rows (data : list (list pyfloat))
    (a : app) :
  data ≠ [] → rectangular data → 3 ≤ length (default [] (head data)) →
  SMOOTHING_WINDOW_LENGTH = 11
  ∧ (length data < SMOOTHING_WINDOW_LENGTH →
     plot_data data a
     = Drawn
         (if PyStr.startswith "ERROR:" (status_var a) then a
          else set_status
                 "Warning: Not enough samples for smoothing. Plotting raw data."
                 a)
         {| title := "Smoothed Data Preview ("
                     +:+ default "None" (current_label_dir a) +:+ ")";
            curves := [column 0 data; column 1 data; column 2 data] |})
  ∧ (SMOOTHING_WINDOW_LENGTH ≤ length data →
     plot_data data a
     = Drawn a
         {| title := "Smoothed Data Preview ("
                     +:+ default "None" (current_label_dir a) +:+ ")";
            curves := [savgol_filter (column 0 data);
                       savgol_filter (column 1 data);
                       savgol_filter (column 2 data)] |}).
Proof.
  intros Hne Hrect Hcols. split; [done|].
  rewrite plot_data_rectangular by done. split.
  - intros Hshort. rewrite bool_decide_eq_true_2 by done.
    rewrite andb_true_l.
    by destruct (PyStr.startswith "ERROR:" (status_var a)).
  - intros Hlong. by rewrite bool_decide_eq_false_2 by lia.
Qed.

Lemma fmap_three {A B} (f : A → B) x y z : f <$> [x; y; z] = [f x; f y; f z].
Proof. done. Qed.

Lemma column_take i n data :
  i < n → column i (take n <$> data) = column i data.
Proof.
  intros Hi. unfold column. induction data as [|row data IH]; [done|].
  rewrite fmap_cons.
  change (omap (λ row : list pyfloat, row !! i) (take n row :: (take n <$> data))
          = omap (λ row : list pyfloat, row !! i) (row :: data))
    with (from_option (λ x, x :: omap (λ row : list pyfloat, row !! i)
                                   (take n <$> data))
            (omap (λ row : list pyfloat, row !! i) (take n <$> data))
            (take n row !! i)
          = from_option (λ x, x :: omap (λ row : list pyfloat, row !! i) data)
              (omap (λ row : list pyfloat, row !! i) data) (row !! i)).
  by rewrite lookup_take_lt, IH.
Qed.

Lemma rectangular_take n data : rectangular data → rectangular (take n <$> data).
Proof.
  unfold rectangular. destruct data as [|first data]; [done|].
  intros Hrect. rewrite fmap_cons. simpl head. simpl default.
  rewrite <- fmap_cons. apply Forall_fmap.
  eapply Forall_impl; [exact Hrect|]. intros row Hrow. simpl in *.
  by rewrite !length_take, Hrow.
Qed.

(** X20.  For rows of one length, the plot depends on the first three
    columns only: columns beyond the third change nothing of what
    [plot_data] draws or reports. *)
Theorem plot_data_first_three_columns (data : list (list pyfloat)) (a : app) :
  rectangular data →
  plot_data (take 3 <$> data) a = plot_data data a.
Proof.
  intros Hrect. destruct data as [|first data]; [done|].
  destruct (decide (length first < 3)) as [Hfew|Hcols].
  - f_equal. rewrite fmap_cons. f_equal.
    + apply take_ge. lia.
    + unfold rectangular in Hrect. apply Forall_cons in Hrect as [_ Hrect].
      simpl in Hrect. clear -Hrect Hfew.
      induction Hrect as [|row data Hrow Hrect IH]; [done|].
      rewrite fmap_cons, IH. f_equal. apply take_ge. lia.
  - rewrite !plot_data_rectangular; try done.
    + rewrite length_fmap, !fmap_three.
      by rewrite !(column_take _ 3) by lia.
    + simpl. lia.
    + by apply rectangular_take.
    + simpl. rewrite length_take. lia.
Qed.

Lemma six_columns_rectangular (data : list (list pyfloat)) :
  Forall (λ v, length v = DATA_COLUMNS) data →
  rectangular data ∧ (data ≠ [] → length (default [] (head data)) = 6).
Proof.
  intros Hsix. split.
  - unfold rectangular. destruct data as [|first data]; [done|].
    simpl. apply Forall_cons in Hsix as [Hfirst Hsix].
    constructor; [done|]. eapply Forall_impl; [done|].
    intros row Hrow. simpl in *. congruence.
  - intros Hne. destruct data as [|first data]; [done|].
    by apply Forall_cons in Hsix as [Hfirst _].
Qed.

End PlotMore.

(** ** The preview *)

Section PreviewMore.
Context `{Externals}.

Lemma startswith_app pre s : PyStr.startswith pre (pre +:+ s) = true.
Proof.
  induction pre as [|c pre IH]; [done|].
  rewrite append_cons. simpl. by rewrite bool_decide_eq_true_2, IH.
Qed.

Lemma set_status_twice m1 m2 a : set_status m2 (set_status m1 a) = set_status m2 a.
Proof. done. Qed.

(** [plot_data] changes at most the status. *)
Lemma plot_data_drawn data a a' fig :
  plot_data data a = Drawn a' fig → ∃ msg, a' = set_status msg a.
Proof.
  unfold plot_data. intros Hplot.
  assert (a = set_status (status_var a) a) as Hsame by (by destruct a).
  destruct (decide (data = [])); [simplify_eq; eauto|].
  destruct (decide (rectangular data)); [|done].
  destruct (decide (_ < 3)); [simplify_eq; eauto|].
  destruct (_ && _); simplify_eq; eauto.
Qed.

(** X21.  [preview_selected_sample_event] changes the status and the
    axes and nothing else, and the status it leaves is one of three:
    the invitation to select a sample, an error of the preview, or the
    name and size of the sample shown.  In particular the smoothing
    warning of [plot_data] is never what is left. *)
Theorem preview_sets_only_status (fs : disk) (a : app) (fig : figure) :
  ∃ msg,
    (preview_selected_sample_event fs a fig).1 = set_status msg a
    ∧ (msg = "Ready. Select a sample or record new data."
       ∨ PyStr.startswith "Error previewing file: " msg
       ∨ PyStr.startswith "Previewing: " msg).
Proof.
  unfold preview_selected_sample_event.
  destruct (curselection a) as [i|]; [|eexists; split; [done|by left]].
  assert (∀ m (f : figure), ∃ msg,
            (set_status ("Error previewing file: " +:+ m) a, f).1
            = set_status msg a
            ∧ (msg = "Ready. Select a sample or record new data."
               ∨ PyStr.startswith "Error previewing file: " msg
               ∨ PyStr.startswith "Previewing: " msg)) as Hfailed.
  { intros m f. eexists. split; [done|]. right. left.
    by rewrite startswith_app. }
  destruct (current_label_dir a) as [dir|]; [|apply Hfailed].
  destruct (file_at fs dir _) as [content|]; [|apply Hfailed].
  destruct (load_preview_data content) as [preview_data|]; [|apply Hfailed].
  destruct (plot_data preview_data _) as [a' fig'|msg] eqn:Hplot;
    [|apply Hfailed].
  apply plot_data_drawn in Hplot as [m ->].
  eexists. split; [done|]. right. right. by rewrite startswith_app.
Qed.

(** The preview of a file that holds a capture of six-float vectors. *)
Lemma preview_of_stored_capture fs a fig dir name i (data : list (list pyfloat)) :
  current_label_dir a = Some dir → curselection a = Some i →
  samples_listbox a !! i = Some name →
  file_at fs dir name = Some (csv_text data) →
  data ≠ [] →
  Forall (λ v, length v = DATA_COLUMNS) data →
  Forall (Forall survives) data →
  preview_selected_sample_event fs a fig
  = (set_status ("Previewing: " +:+ name +:+ " ("
                 +:+ pretty (length data) +:+ " samples)") a,
     {| title := "Smoothed Data Preview (" +:+ dir +:+ ")";
        curves := (λ i, if bool_decide (length data < SMOOTHING_WINDOW_LENGTH)
                        then column i data
                        else savgol_filter (column i data)) <$> [0; 1; 2] |}).
Proof.
  intros Hdir Hsel Hitem Hfile Hdata Hsix Hfloats.
  unfold preview_selected_sample_event.
  rewrite Hsel, Hitem, Hdir. simpl default.
  rewrite Hfile, load_preview_data_csv_text by done.
  destruct (six_columns_rectangular data Hsix) as [Hrect Hcols].
  rewrite plot_data_rectangular; [|done|done|rewrite Hcols; [lia|done]].
  simpl. rewrite Hdir. by destruct (_ && _).
Qed.

(** X22.  A capture of six-float vectors that was saved is shown by the
    preview of its file: the status gives the file name and the number of
    vectors, and the curves are the first three columns of the capture,
    as they are below 11 vectors and filtered from 11 on. *)
Theorem saved_capture_is_previewed (now : datetime)
    (data : list (list pyfloat)) (fs : disk) (a : app) (fig : figure)
    (dir : string) (files : gmap string string) :
  data ≠ [] →
  Forall (λ v, length v = DATA_COLUMNS) data →
  Forall (Forall survives) data →
  current_label_dir a = Some dir → dir ≠ "" → fs !! dir = Some files →
  ∃ a1 fs1 path,
    save_data_to_csv now NoFault data fs a = (a1, fs1, Some path)
    ∧ ∀ a2 i,
        current_label_dir a2 = Some dir →
        curselection a2 = Some i →
        samples_listbox a2 !! i = Some (sample_filename dir now) →
        ∃ a3 fig3,
          preview_selected_sample_event fs1 a2 fig = (a3, fig3)
          ∧ status_var a3
            = "Previewing: " +:+ sample_filename dir now +:+ " ("
              +:+ pretty (length data) +:+ " samples)"
          ∧ curves fig3
            = (λ i, if bool_decide (length data < SMOOTHING_WINDOW_LENGTH)
                    then column i data
                    else savgol_filter (column i data)) <$> [0; 1; 2].
Proof.
  intros Hdata Hsix Hfloats Hdir Hne Hfs.
  rewrite (save_data_to_csv_accepted _ _ _ fs a dir) by done. rewrite Hfs.
  eexists _, _, _. split; [done|].
  intros a2 i Hdir2 Hsel Hitem.
  rewrite (preview_of_stored_capture _ a2 fig dir (sample_filename dir now)
             i data); [by eexists _, _|done..|idtac|done|done|done].
  by rewrite file_at_insert_eq.
Qed.

End PreviewMore.

(** ** The record action *)

Section RecordMore.
Context `{Externals}.

Lemma append_nonempty_r s t : t ≠ "" → s +:+ t ≠ "".
Proof. intros Ht. destruct s; [done|]. by rewrite append_cons. Qed.

Lemma sample_filepath_nonempty dir now : sample_filepath dir now ≠ "".
Proof.
  unfold sample_filepath, os_path_join. cbn [foldl].
  assert (sample_filename dir now ≠ "") as Hname.
  { unfold sample_filename. rewrite <- !append_assoc.
    by apply append_nonempty_r. }
  destruct (PyStr.startswith "/" (sample_filename dir now)); [done|].
  destruct (_ || _); by repeat apply append_nonempty_r.
Qed.

Lemma label_selected_listed fs a dir files :
  head (PyStr.split " " (current_label a)) = Some dir → dir ≠ "" →
  fs !! dir = Some files →
  label_selected fs a
  = set_record_button (truthy (wio_port_name a))
      (set_listbox (list_samples files) None
         (set_current (current_label a) (Some dir) a)).
Proof.
  intros Hdir Hne Hfs. unfold label_selected, load_sample_list. simpl.
  rewrite Hdir. simpl. rewrite bool_decide_eq_false_2 by done. simpl.
  by rewrite Hfs.
Qed.

(** [preview_selected_sample_event] changes at most the status. *)
Lemma preview_status_only fs a fig :
  ∃ msg, (preview_selected_sample_event fs a fig).1 = set_status msg a.
Proof.
  unfold preview_selected_sample_event.
  destruct (curselection a) as [i|]; [|by eexists].
  destruct (current_label_dir a) as [dir|]; [|by eexists].
  destruct (file_at fs dir _) as [content|]; [|by eexists].
  destruct (load_preview_data content) as [preview_data|]; [|by eexists].
  destruct (plot_data preview_data _) as [a' fig'|msg] eqn:Hplot;
    [|by eexists].
  apply plot_data_drawn in Hplot as [m ->]. by eexists.
Qed.

Lemma save_data_to_csv_keeps now fault data fs a :
  ∃ msg, (save_data_to_csv now fault data fs a).1.1 = set_status msg a.
Proof.
  unfold save_data_to_csv. destruct (_ || _); [by eexists|].
  destruct (fs !! _); [|by eexists]. destruct fault; by eexists.
Qed.

(** X23.  When the capture does not finish (no port was detected, the
    port does not open, or a read raises), [record_and_save_data] saves
    nothing: the disk and the axes are as they were, the status is the
    error of the save, which replaces the diagnostic of the read, and the
    record button ends enabled, also when no port was detected. *)
Theorem failed_capture_saves_nothing (now : datetime) (dev : device)
    (fault : write_fault) (fs : disk) (a : app) (fig : figure) (c : capture) :
  truthy (current_label_dir a) →
  read_serial_data (wio_port_name a) dev = Returns c →
  port c ≠ Closed →
  record_and_save_data now dev fault fs a fig
  = Some (set_record_button true
            (set_status "Error: No data or no label selected to save." a),
          fig, fs).
Proof.
  intros Hlabel Hret Hport. unfold record_and_save_data.
  destruct (truthy (current_label_dir a)); [simpl|done].
  rewrite Hret.
  apply (returned_empty_iff _ _ _ Hret) in Hport.
  rewrite Hport, save_data_to_csv_rejected by by left.
  simpl. by destruct a.
Qed.

(** X24.  When the capture finishes and the save succeeds (the drop-down
    text names the current label, whose directory exists, and each float
    is printed as a field that reads back as the same float),
    [record_and_save_data] stores the capture in a new file of the label,
    reloads the list box from the label's directory, selects its first
    item and previews it.  When no sample of the label has a greater
    name, that item is the new file, the status names it with the number
    of vectors captured, and the curves are the first three columns of
    the capture. *)
Theorem record_saves_and_previews (now : datetime) (dev : device)
    (fs : disk) (a : app) (fig : figure) (c : capture)
    (dir : string) (files : gmap string string) :
  current_label_dir a = Some dir → dir ≠ "" →
  head (PyStr.split " " (current_label a)) = Some dir →
  fs !! dir = Some files →
  read_serial_data (wio_port_name a) dev = Returns c →
  port c = Closed →
  Forall (Forall survives) (returned c) →
  (∀ other, is_csv other → is_Some (files !! other) →
            String.le other (sample_filename dir now)) →
  ∃ a' fig',
    record_and_save_data now dev NoFault fs a fig
    = Some (a', fig',
            <[dir := <[sample_filename dir now := csv_text (returned c)]>
                       files]> fs)
    ∧ samples_listbox a'
      = list_samples (<[sample_filename dir now := csv_text (returned c)]>
                        files)
    ∧ curselection a' = Some 0
    ∧ samples_listbox a' !! 0 = Some (sample_filename dir now)
    ∧ status_var a'
      = "Previewing: " +:+ sample_filename dir now +:+ " ("
        +:+ pretty (length (returned c)) +:+ " samples)"
    ∧ record_button a' = true
    ∧ curves fig'
      = (λ i, if bool_decide (length (returned c) < SMOOTHING_WINDOW_LENGTH)
              then column i (returned c)
              else savgol_filter (column i (returned c))) <$> [0; 1; 2].
Proof.
  intros Hdir Hne Hlabel Hfs Hret Hport Hfloats Hmax.
  assert (returned c ≠ []) as Hdata.
  { intros Hnil. by apply (returned_empty_iff _ _ _ Hret) in Hnil. }
  pose proof (returned_six_floats _ _ _ Hret) as Hsix.
  set (name := sample_filename dir now) in *.
  set (files' := <[name := csv_text (returned c)]> files).
  assert (head (list_samples files') = Some name) as Hhead.
  { apply list_samples_head.
    - apply sample_filename_is_csv.
    - unfold files'. rewrite lookup_insert_eq. by eexists.
    - intros other Hcsv Hfile. destruct (decide (other = name)) as [->|Ho].
      + done.
      + apply Hmax; [done|]. unfold files' in Hfile.
        by rewrite lookup_insert_ne in Hfile. }
  unfold record_and_save_data. rewrite Hdir.
  assert (truthy (Some dir) = true) as ->
    by (simpl; by rewrite bool_decide_eq_false_2).
  cbv beta iota zeta. cbn [negb].
  change (wio_port_name (set_record_button false a)) with (wio_port_name a).
  rewrite Hret.
  rewrite (save_data_to_csv_accepted _ _ _ fs _ dir) by done. rewrite Hfs.
  fold name. fold files'.
  assert (truthy (Some (sample_filepath dir now)) = true) as ->.
  { simpl. by rewrite bool_decide_eq_false_2 by apply sample_filepath_nonempty. }
  set (fs' := <[dir := files']> fs).
  set (a1 := load_labels fs' _).
  assert (head (PyStr.split " " (current_label a1)) = Some dir) as Hlabel1.
  { unfold a1. by destruct (load_labels_keeps fs' (set_status
      ("Successfully saved " +:+ pretty (length (returned c))
       +:+ " samples to " +:+ dir +:+ "/" +:+ name)
      (set_status (status c) (set_record_button false a)))) as [-> _]. }
  rewrite (label_selected_listed fs' a1 dir files') by
    (done || (unfold fs'; by rewrite lookup_insert_eq)).
  destruct (list_samples files') as [|first items] eqn:Hitems; [done|].
  simpl in Hhead. injection Hhead as ->.
  cbn [samples_listbox set_record_button set_listbox].
  rewrite decide_True by (simpl; lia).
  rewrite (preview_of_stored_capture fs' _ _ dir name 0 (returned c));
    [| done | done | done | | done | done | done].
  - eexists _, _. split; [done|]. simpl. split_and!; done.
  - unfold file_at, fs'. rewrite lookup_insert_eq. simpl.
    unfold files'. by rewrite lookup_insert_eq.
Qed.

(** X25.  Whatever the capture and the save do, a call of
    [record_and_save_data] that returns with a label selected leaves the
    record button enabled, also when no port was detected and the button
    was disabled for that reason, and it changes neither the port name
    nor the text shown in the label box, whose sample count is therefore
    the one from before the recording. *)
Theorem record_enables_button_keeps_label (now : datetime) (dev : device)
    (fault : write_fault) (fs fs' : disk) (a a' : app) (fig fig' : figure) :
  truthy (current_label_dir a) →
  record_and_save_data now dev fault fs a fig = Some (a', fig', fs') →
  record_button a' = true
  ∧ wio_port_name a' = wio_port_name a
  ∧ current_label a' = current_label a.
Proof.
  intros Hlabel. unfold record_and_save_data.
  destruct (truthy (current_label_dir a)); [|done].
  cbv beta iota zeta. cbn [negb].
  change (wio_port_name (set_record_button false a)) with (wio_port_name a).
  destruct (read_serial_data _ dev) as [c|]; [|done].
  destruct (save_data_to_csv_keeps now fault (returned c) fs
              (set_status (status c) (set_record_button false a)))
    as [msg Hsave].
  destruct (save_data_to_csv _ _ _ _ _) as [[a1 fs1] saved].
  simpl in Hsave. subst a1.
  destruct (truthy saved); [|intros [= <- _ _]; done].
  set (a1 := load_labels fs1 _).
  destruct (load_labels_keeps fs1 (set_status msg
              (set_status (status c) (set_record_button false a))))
    as [Hcur Hwio].
  fold a1 in Hcur, Hwio. simpl in Hcur, Hwio.
  assert (wio_port_name (label_selected fs1 a1) = wio_port_name a
          ∧ current_label (label_selected fs1 a1) = current_label a)
    as [Hwio2 Hcur2].
  { rewrite <- Hcur, <- Hwio. unfold label_selected, load_sample_list.
    simpl. destruct (truthy _); [|done]. by destruct (fs1 !! _). }
  destruct (decide _).
  - destruct (preview_status_only fs1
      (selection_set 0 (set_listbox (samples_listbox (label_selected fs1 a1))
                          None (label_selected fs1 a1)))
      (label_selected_plot fs1 a1 fig)) as [m Hprev].
    destruct (preview_selected_sample_event _ _ _) as [a2 fig2].
    simpl in Hprev. subst a2. intros [= <- _ _].
    unfold selection_set.
    destruct (decide _);
      (split_and!; [reflexivity|exact Hwio2|exact Hcur2]).
  - intros [= <- _ _]. split_and!; [done|exact Hwio2|exact Hcur2].
Qed.

End RecordMore.

(** ** Start-up *)

Section StartupMore.
Context `{Externals}.

Lemma sort_asc_nil l : sort_asc l = [] ↔ l = [].
Proof.
  unfold sort_asc. split; [|by intros ->].
  intros Hnil. apply Permutation_nil_r. rewrite <- Hnil.
  symmetry. apply merge_sort_Permutation.
Qed.

Lemma listdir_nil {V} (d : gmap string V) : listdir d = [] ↔ d = ∅.
Proof.
  unfold listdir. by rewrite elements_empty_iff, dom_empty_iff.
Qed.

Lemma label_options_nil fs a : label_options (load_labels fs a) = [] ↔ fs = ∅.
Proof.
  destruct (load_labels_fields fs a) as [_ ->].
  rewrite sort_asc_nil, <- listdir_nil.
  split; [apply fmap_nil_inv|by intros ->].
Qed.

(** X26.  Once the window is built, the record button is enabled exactly
    when a port of the device was detected and the base folder holds at
    least one label directory. *)
Theorem startup_record_button (comports : list ListPortInfo)
    (base : option disk) :
  record_button (startup comports base).1.1 = true
  ↔ truthy (auto_detect_wio_port comports) = true ∧ default ∅ base ≠ ∅.
Proof.
  unfold startup. cbv zeta. cbn [fst].
  set (wio := auto_detect_wio_port comports).
  set (fs := default ∅ base).
  set (a0 := Build_app _ _ _ _ _ _ _ _ _).
  pose proof (label_options_nil fs a0) as Hnil.
  assert (record_button (load_labels fs a0)
          = if decide (label_options (load_labels fs a0) = [])
            then false else truthy wio) as Hbutton.
  { unfold load_labels at 1. cbv zeta.
    destruct (load_labels_fields fs a0) as [_ ->].
    destruct (decide (_ = [])); reflexivity. }
  set (a1 := load_labels fs a0) in *.
  assert (∀ a, record_button (load_sample_list fs a) = record_button a)
    as Hload.
  { intros a. unfold load_sample_list. cbv zeta.
    destruct (truthy (current_label_dir _)); [|done]. by destruct (fs !! _). }
  assert (∀ (b : bool) m a,
            record_button (if b then set_status m a else a)
            = record_button a) as Hif by (by intros []).
  assert (∀ (b : bool) m (a : app),
            current_label_dir (if b then set_status m a else a)
            = current_label_dir a) as Hifd by (by intros []).
  destruct (label_options a1) as [|first options] eqn:Hoptions.
  - rewrite !Hif, Hload. simpl. split; [done|]. intros [_ Hfs].
    by destruct Hfs, Hnil as [-> _].
  - rewrite !Hif, Hload. simpl. rewrite Hbutton.
    destruct (decide (_ = [])) as [Heq|_]; [done|].
    split; [|by intros [? _]]. intros Hwio. split; [done|].
    by intros Hfs%Hnil.
Qed.

(** X27.  With at least one label directory, none of which has an empty
    name or a space in its name, start-up selects the label whose option
    is first in the sorted list, shows that label's samples with none
    selected, and leaves the disk as it is.  The status is the
    invitation to record when a port was detected.  When none was, the
    status is the error of the first [load_sample_list], whose
    [plot_data] runs before the canvas exists. *)
Theorem startup_selects_first_label (comports : list ListPortInfo)
    (fs : disk) :
  fs ≠ ∅ →
  (∀ d, is_Some (fs !! d) →
        d ≠ "" ∧ PyStr.all (λ c, negb (bool_decide (c = " "%char))) d) →
  ∃ a fig dir files,
    startup comports (Some fs) = (a, fig, fs)
    ∧ fs !! dir = Some files
    ∧ current_label a = label_option dir (count_samples files)
    ∧ (∀ o, o ∈ label_options a → String.le (current_label a) o)
    ∧ current_label_dir a = Some dir
    ∧ samples_listbox a = list_samples files
    ∧ curselection a = None
    ∧ title fig = "No Data to Display"
    ∧ status_var a
      = if truthy (auto_detect_wio_port comports)
        then "Ready. Recording to '" +:+ dir +:+ "/'"
        else "Error loading samples: " +:+ canvas_missing_error.
Proof.
  intros Hfs Hnames. unfold startup. cbv zeta.
  set (wio := auto_detect_wio_port comports).
  change (default ∅ (Some fs)) with fs.
  set (a0 := Build_app _ _ _ _ _ _ _ _ _).
  pose proof (label_options_nil fs a0) as Hnil.
  destruct (load_labels_fields fs a0) as [_ Hoptions].
  pose proof (sort_asc_sorted ((λ dirname,
                   label_option dirname
                     (count_samples (default ∅ (fs !! dirname))))
                <$> listdir fs)) as Hsorted.
  rewrite <- Hoptions in Hsorted.
  assert (∀ o, o ∈ label_options (load_labels fs a0) →
               ∃ d files, fs !! d = Some files
                          ∧ o = label_option d (count_samples files))
    as Hmem.
  { intros o. rewrite Hoptions, elem_of_sort_asc, list_elem_of_fmap.
    intros (d & -> & [files Hd]%elem_of_listdir).
    exists d, files. by rewrite Hd. }
  set (a1 := load_labels fs a0) in *.
  destruct (label_options a1) as [|first options] eqn:Hfirst.
  { by destruct Hfs, Hnil as [-> _]. }
  destruct (Hmem first) as (dir & files & Hdir & ->); [by left|].
  destruct (Hnames dir) as [Hne Hplain]; [by eexists|].
  assert (head (PyStr.split " " (label_option dir (count_samples files)))
          = Some dir) as Hsplit.
  { etrans; [|by apply head_split_plain].
    apply (head_split_app " " dir
             ("(" +:+ pretty (count_samples files) +:+ " samples)")). }
  rewrite Hsplit.
  unfold load_sample_list_plot, load_sample_list. cbv zeta.
  cbn [current_label_dir set_current set_listbox default truthy].
  rewrite bool_decide_eq_false_2 by done. cbn [negb andb].
  change (id dir) with dir.
  rewrite Hdir. rewrite bool_decide_eq_true_2 by by eexists.
  eexists _, _, dir, files. split; [done|].
  apply StronglySorted_inv in Hsorted as [_ Hle].
  destruct (truthy wio); simpl.
  - rewrite (bool_decide_eq_false_2 (dir = "")) by done. simpl.
    split_and!; try done.
    intros o Ho. rewrite Hfirst in Ho.
    apply elem_of_cons in Ho as [->|Ho]; [done|].
    rewrite Forall_forall in Hle. by apply Hle.
  - split_and!; try done.
    intros o Ho. rewrite Hfirst in Ho.
    apply elem_of_cons in Ho as [->|Ho]; [done|].
    rewrite Forall_forall in Hle. by apply Hle.
Qed.

(** X28.  Without a label directory, be it that the base folder is
    empty or that start-up has just created it, the label box shows
    [No Labels], no label is selected, the list box is empty and the
    record button is disabled.  The status is the result of the port
    detection, or the notice that the base folder was created, which
    replaces it. *)
Theorem startup_without_labels (comports : list ListPortInfo)
    (base : option disk) :
  default ∅ base = ∅ →
  ∃ a fig,
    startup comports base = (a, fig, ∅)
    ∧ current_label a = "No Labels"
    ∧ current_label_dir a = None
    ∧ label_dirs a = [] ∧ label_options a = []
    ∧ samples_listbox a = []
    ∧ record_button a = false
    ∧ title fig = "Data Preview"
    ∧ status_var a
      = match base, auto_detect_wio_port comports with
        | None, _ => "Created base data folder: samples/"
        | Some _, Some name =>
            if bool_decide (name = "")
            then "ERROR: Wio Terminal not found! Check connection."
            else "Wio Terminal found on port: " +:+ name
        | Some _, None => "ERROR: Wio Terminal not found! Check connection."
        end.
Proof.
  intros Hbase. unfold startup. cbv zeta. rewrite Hbase.
  set (wio := auto_detect_wio_port comports).
  set (a0 := Build_app _ _ _ _ _ _ _ _ _).
  assert (load_labels ∅ a0 = set_record_button false a0) as ->.
  { unfold load_labels, listdir. rewrite dom_empty_L, elements_empty.
    reflexivity. }
  simpl. rewrite andb_false_r. eexists _, _. split; [done|].
  simpl. by split_and!.
Qed.

End StartupMore.

(** ** The further properties on concrete runs *)

Section Sessions.
Import Scenario Session.
#[local] Existing Instance Fixture.builtins.
#[local] Existing Instance PlotFixture.externals.

Lemma capture_vectors_have_six_floats_witness :
  DATA_COLUMNS = 6
  ∧ Forall (λ v, length v = DATA_COLUMNS) (returned steady_capture).
Proof.
  apply (capture_vectors_have_six_floats (H := Fixture.builtins)
           port_name steady_device steady_capture).
  reflexivity.
Defined.

Lemma empty_capture_iff_not_finished_witness :
  returned unplugged_capture = [] ↔ port unplugged_capture ≠ Closed.
Proof.
  apply (empty_capture_iff_not_finished (H := Fixture.builtins)
           port_name unplugged_device unplugged_capture).
  reflexivity.
Defined.

Lemma capture_waits_for_stop_record_witness :
  read_serial_data port_name slow_device
  = Blocked {| start_ts := Some 100%Z; data := two_rows |}.
Proof.
  apply (capture_waits_for_stop_record (H := Fixture.builtins)
           port_name slow_device).
  - done.
  - done.
  - repeat constructor.
  - intros t0 [= <-]. repeat constructor.
Defined.

Lemma label_count_is_listbox_size_witness :
  label_option "walk" (length (list_samples walk_files))
  ∈ label_options (load_labels walk_disk (browsing 0)).
Proof.
  apply (label_count_is_listbox_size walk_disk (browsing 0) "walk" walk_files).
  reflexivity.
Defined.

Lemma label_selected_follows_option_witness :
  current_label_dir (label_selected walk_disk (browsing 0))
  = head (PyStr.split " " "walk")
  ∧ curselection (label_selected walk_disk (browsing 0)) = None
  ∧ record_button (label_selected walk_disk (browsing 0))
    = truthy (wio_port_name (browsing 0))
  ∧ (∀ files,
       "walk" ≠ "" →
       PyStr.all (λ c, negb (bool_decide (c = " "%char))) "walk" →
       walk_disk !! "walk" = Some files →
       current_label_dir (label_selected walk_disk (browsing 0)) = Some "walk"
       ∧ samples_listbox (label_selected walk_disk (browsing 0))
         = list_samples files).
Proof.
  apply (label_selected_follows_option walk_disk (browsing 0) "walk" 3).
  reflexivity.
Defined.

Lemma add_new_label_creates_label_witness :
  ∃ a',
    add_new_label None "Walk Fast!" fresh_disk fresh
    = (a', <[sanitize "Walk Fast!" := ∅]> fresh_disk)
    ∧ PyStr.all (λ c, isalnum c || bool_decide (c = "_"%char)
                      || bool_decide (c = "-"%char)) (sanitize "Walk Fast!")
    ∧ sanitize "Walk Fast!" ∈ label_dirs a'
    ∧ current_label a' = label_option (sanitize "Walk Fast!") 0
    ∧ current_label_dir a' = Some (sanitize "Walk Fast!")
    ∧ samples_listbox a' = [] ∧ curselection a' = None
    ∧ record_button a' = truthy (wio_port_name fresh)
    ∧ status_var a' = "Created new label folder: " +:+ sanitize "Walk Fast!".
Proof.
  apply (add_new_label_creates_label (H := Fixture.builtins)
           "Walk Fast!" fresh_disk fresh).
  - done.
  - reflexivity.
Defined.

Lemma add_new_label_twice_rejected_witness :
  is_Some ((add_new_label None "Walk Fast!" fresh_disk fresh).2
           !! sanitize "Walk Fast!")
  ∧ ∀ fault fs1 a1,
      is_Some (fs1 !! sanitize "Walk Fast!") →
      add_new_label fault "Walk Fast!" fs1 a1
      = (set_status
           ("Error creating label folder: "
            +:+ file_exists_error
                  (os_path_join BASE_FOLDER_NAME [sanitize "Walk Fast!"])) a1,
         fs1).
Proof.
  apply (add_new_label_twice_rejected (H := Fixture.builtins)
           "Walk Fast!" fresh_disk fresh).
  done.
Defined.

Lemma add_new_label_keeps_directories_witness :
  (add_new_label None "Walk Fast!" walk_disk (browsing 0)).2 !! "walk"
  = Some walk_files.
Proof.
  apply (add_new_label_keeps_directories (H := Fixture.builtins)
           None "Walk Fast!" walk_disk (browsing 0) "walk" walk_files).
  reflexivity.
Defined.

Lemma save_touches_one_file_witness :
  dom (save_data_to_csv clock NoFault two_rows walk_disk (browsing 0)).1.2
  = dom walk_disk
  ∧ file_at (save_data_to_csv clock NoFault two_rows walk_disk (browsing 0)).1.2
      "walk" "walk_20240307_090541.csv"
    = file_at walk_disk "walk" "walk_20240307_090541.csv".
Proof.
  apply (save_touches_one_file (H := Fixture.builtins)
           clock NoFault two_rows walk_disk (browsing 0)
           "walk" "walk_20240307_090541.csv").
  by intros [_ ?].
Defined.

Lemma save_same_second_overwrites_witness :
  ∃ a1 fs1 a2 fs2 path,
    save_data_to_csv clock NoFault two_rows fresh_disk fresh
    = (a1, fs1, Some path)
    ∧ save_data_to_csv clock NoFault [stop_row] fs1 a1 = (a2, fs2, Some path)
    ∧ file_at fs1 "walk" (sample_filename "walk" clock)
      = Some (csv_text two_rows)
    ∧ file_at fs2 "walk" (sample_filename "walk" clock)
      = Some (csv_text [stop_row])
    ∧ fs2 = (save_data_to_csv clock NoFault [stop_row] fresh_disk fresh).1.2.
Proof.
  apply (save_same_second_overwrites (H := Fixture.builtins)
           clock two_rows [stop_row] fresh_disk fresh "walk" ∅); done.
Defined.

Lemma saved_sample_listed_first_witness :
  ∃ a' fs' path,
    save_data_to_csv clock NoFault two_rows fresh_disk fresh
    = (a', fs', Some path)
    ∧ sample_filename "walk" clock
      ∈ samples_listbox (load_sample_list fs' a')
    ∧ ((∀ other, is_csv other → is_Some ((∅ : gmap string string) !! other) →
                 String.le other (sample_filename "walk" clock)) →
       head (samples_listbox (load_sample_list fs' a'))
       = Some (sample_filename "walk" clock))
    ∧ (∀ other, is_csv other → is_Some ((∅ : gmap string string) !! other) →
                ¬ String.le other (sample_filename "walk" clock) →
                head (samples_listbox (load_sample_list fs' a'))
                ≠ Some (sample_filename "walk" clock)).
Proof.
  apply (saved_sample_listed_first (H := Fixture.builtins)
           clock two_rows fresh_disk fresh "walk" ∅); done.
Defined.

Lemma delete_touches_one_file_witness :
  dom (delete_selected_sample None walk_disk (browsing 2)).2 = dom walk_disk
  ∧ file_at (delete_selected_sample None walk_disk (browsing 2)).2
      "walk" "walk_20240307_090543.csv"
    = file_at walk_disk "walk" "walk_20240307_090543.csv".
Proof.
  apply (delete_touches_one_file None walk_disk (browsing 2)
           "walk" "walk_20240307_090543.csv").
  intros [_ (i & [= <-] & Hname)]. vm_compute in Hname. done.
Defined.

Lemma delete_only_sample_witness :
  ∃ a' fs',
    delete_selected_sample None single_disk single = (a', fs')
    ∧ file_at fs' "walk" "walk_20240307_090542.csv" = None
    ∧ samples_listbox a' = []
    ∧ curselection a' = None
    ∧ status_var a' = "Successfully deleted: " +:+ "walk_20240307_090542.csv".
Proof.
  apply (delete_only_sample single_disk single "walk" single_files
           "walk_20240307_090542.csv"); done.
Defined.

Lemma delete_missing_file_reported_witness :
  delete_selected_sample None fresh_disk (browsing 0)
  = (set_status
       ("Error deleting file: "
        +:+ file_not_found_error
              (os_path_join BASE_FOLDER_NAME
                 ["walk"; "walk_20240307_090543.csv"])) (browsing 0),
     fresh_disk).
Proof.
  apply (delete_missing_file_reported None fresh_disk (browsing 0) "walk" 0
           "walk_20240307_090543.csv"); done.
Defined.

Lemma plot_data_smooths_from_eleven_rows_witness :
  plot_data two_rows fresh
  = Drawn
      (set_status
         "Warning: Not enough samples for smoothing. Plotting raw data." fresh)
      {| title := "Smoothed Data Preview (walk)";
         curves := [column 0 two_rows; column 1 two_rows;
                    column 2 two_rows] |}.
Proof.
  refine (proj1 (proj2 (plot_data_smooths_from_eleven_rows
                          (H0 := PlotFixture.externals) two_rows fresh
                          _ _ _)) _).
  - done.
  - repeat constructor.
  - simpl. lia.
  - simpl. unfold SMOOTHING_WINDOW_LENGTH. lia.
Defined.

Lemma plot_data_first_three_columns_witness :
  plot_data (take 3 <$> two_rows) fresh = plot_data two_rows fresh.
Proof.
  apply (plot_data_first_three_columns (H0 := PlotFixture.externals)
           two_rows fresh).
  repeat constructor.
Defined.

Lemma saved_capture_is_previewed_witness :
  ∃ a1 fs1 path,
    save_data_to_csv clock NoFault two_rows fresh_disk fresh
    = (a1, fs1, Some path)
    ∧ ∀ a2 i,
        current_label_dir a2 = Some "walk" →
        curselection a2 = Some i →
        samples_listbox a2 !! i = Some (sample_filename "walk" clock) →
        ∃ a3 fig3,
          preview_selected_sample_event fs1 a2 blank = (a3, fig3)
          ∧ status_var a3
            = "Previewing: " +:+ sample_filename "walk" clock +:+ " ("
              +:+ pretty (length two_rows) +:+ " samples)"
          ∧ curves fig3
            = (λ i, if bool_decide (length two_rows < SMOOTHING_WINDOW_LENGTH)
                    then column i two_rows
                    else savgol_filter (column i two_rows)) <$> [0; 1; 2].
Proof.
  apply (saved_capture_is_previewed (H0 := PlotFixture.externals)
           clock two_rows fresh_disk fresh blank "walk" ∅); try done.
  - repeat constructor.
  - repeat constructor; by vm_compute.
Defined.

Lemma failed_capture_saves_nothing_witness :
  record_and_save_data clock unplugged_device NoFault fresh_disk fresh blank
  = Some (set_record_button true
            (set_status "Error: No data or no label selected to save." fresh),
          blank, fresh_disk).
Proof.
  apply (failed_capture_saves_nothing (H0 := PlotFixture.externals)
           clock unplugged_device NoFault fresh_disk fresh blank
           unplugged_capture).
  - done.
  - reflexivity.
  - done.
Defined.

Lemma record_saves_and_previews_witness :
  ∃ a' fig',
    record_and_save_data clock steady_device NoFault fresh_disk fresh blank
    = Some (a', fig',
            <["walk" := <[sample_filename "walk" clock
                          := csv_text (returned steady_capture)]> ∅]>
              fresh_disk)
    ∧ samples_listbox a'
      = list_samples (<[sample_filename "walk" clock
                        := csv_text (returned steady_capture)]> ∅)
    ∧ curselection a' = Some 0
    ∧ samples_listbox a' !! 0 = Some (sample_filename "walk" clock)
    ∧ status_var a'
      = "Previewing: " +:+ sample_filename "walk" clock +:+ " ("
        +:+ pretty (length (returned steady_capture)) +:+ " samples)"
    ∧ record_button a' = true
    ∧ curves fig'
      = (λ i, if bool_decide (length (returned steady_capture)
                              < SMOOTHING_WINDOW_LENGTH)
              then column i (returned steady_capture)
              else savgol_filter (column i (returned steady_capture)))
        <$> [0; 1; 2].
Proof.
  apply (record_saves_and_previews (H0 := PlotFixture.externals)
           clock steady_device fresh_disk fresh blank steady_capture
           "walk" ∅).
  - done.
  - done.
  - reflexivity.
  - done.
  - reflexivity.
  - done.
  - repeat constructor; by vm_compute.
  - intros other _ [content Hfile]. by rewrite lookup_empty in Hfile.
Defined.

Lemma record_enables_button_keeps_label_witness :
  record_button
    (set_record_button true
       (set_status "Error: No data or no label selected to save." fresh))
  = true
  ∧ wio_port_name
      (set_record_button true
         (set_status "Error: No data or no label selected to save." fresh))
    = wio_port_name fresh
  ∧ current_label
      (set_record_button true
         (set_status "Error: No data or no label selected to save." fresh))
    = current_label fresh.
Proof.
  apply (record_enables_button_keeps_label (H0 := PlotFixture.externals)
           clock unplugged_device NoFault fresh_disk fresh_disk fresh _
           blank blank).
  - done.
  - reflexivity.
Defined.

Lemma startup_selects_first_label_witness :
  ∃ a fig dir files,
    startup ports (Some walk_disk) = (a, fig, walk_disk)
    ∧ walk_disk !! dir = Some files
    ∧ current_label a = label_option dir (count_samples files)
    ∧ (∀ o, o ∈ label_options a → String.le (current_label a) o)
    ∧ current_label_dir a = Some dir
    ∧ samples_listbox a = list_samples files
    ∧ curselection a = None
    ∧ title fig = "No Data to Display"
    ∧ status_var a
      = if truthy (auto_detect_wio_port ports)
        then "Ready. Recording to '" +:+ dir +:+ "/'"
        else "Error loading samples: " +:+ canvas_missing_error.
Proof.
  apply (startup_selects_first_label (H := Fixture.builtins)
           ports walk_disk).
  - apply map_non_empty_singleton.
  - intros d [files Hd]. unfold walk_disk in Hd.
    apply lookup_singleton_Some in Hd as [<- _]. by split.
Defined.

Lemma startup_without_labels_witness :
  ∃ a fig,
    startup ports None = (a, fig, ∅)
    ∧ current_label a = "No Labels"
    ∧ current_label_dir a = None
    ∧ label_dirs a = [] ∧ label_options a = []
    ∧ samples_listbox a = []
    ∧ record_button a = false
    ∧ title fig = "Data Preview"
    ∧ status_var a = "Created base data folder: samples/".
Proof.
  apply (startup_without_labels (H := Fixture.builtins) ports None).
  reflexivity.
Defined.

End Sessions.
